(** * Husqvarna Automower BLE integration: activity mapper, poller, entities

    A shallow embedding of [custom_components/husqvarna_automower_ble]
    ([__init__.py], [coordinator.py], [lawn_mower.py]).  The mower client
    ([automower_ble]), the BLE discovery layer ([bluetooth],
    [bleak_retry_connector]) and the refresh machinery of the coordinator base
    class are external: they appear as an interface ([Platform]) and as
    section variables, and every external call is recorded, with its reply,
    in the list of events a computation emits. *)

From Stdlib Require Import ZArith List String Bool Lia.
Import ListNotations.
Local Open Scope string_scope.
Local Open Scope list_scope.

(** ** Enumerations of the external vocabulary *)

(** Modelled from the spec: [automower_ble.protocol.MowerState] is not under
    src/.  The members are the ones [lawn_mower.py] names (spec 4.1); every
    other member of the enumeration is [OTHER code]. *)
Module MowerState.
Inductive t : Type :=
| PAUSED
| WAIT_FOR_SAFETYPIN
| STOPPED
| FATAL_ERROR
| ERROR
| PENDING_START
| IN_OPERATION
| RESTRICTED
| OTHER (code : nat).

Definition eqb (x y : t) : bool :=
  match x, y with
  | PAUSED, PAUSED
  | WAIT_FOR_SAFETYPIN, WAIT_FOR_SAFETYPIN
  | STOPPED, STOPPED
  | FATAL_ERROR, FATAL_ERROR
  | ERROR, ERROR
  | PENDING_START, PENDING_START
  | IN_OPERATION, IN_OPERATION
  | RESTRICTED, RESTRICTED => true
  | OTHER a, OTHER b => Nat.eqb a b
  | _, _ => false
  end.
End MowerState.

(** Modelled from the spec: [automower_ble.protocol.MowerActivity] is not
    under src/.  Same convention as [MowerState.t]. *)
Module MowerActivity.
Inductive t : Type :=
| CHARGING
| PARKED
| GOING_OUT
| MOWING
| GOING_HOME
| OTHER (code : nat).

Definition eqb (x y : t) : bool :=
  match x, y with
  | CHARGING, CHARGING
  | PARKED, PARKED
  | GOING_OUT, GOING_OUT
  | MOWING, MOWING
  | GOING_HOME, GOING_HOME => true
  | OTHER a, OTHER b => Nat.eqb a b
  | _, _ => false
  end.
End MowerActivity.

(** Home Assistant's [LawnMowerActivity], the presentation vocabulary: the
    four members the integration produces. *)
Module LawnMowerActivity.
Inductive t : Type := ERROR | PAUSED | MOWING | DOCKED.

Definition eqb (x y : t) : bool :=
  match x, y with
  | ERROR, ERROR | PAUSED, PAUSED | MOWING, MOWING | DOCKED, DOCKED => true
  | _, _ => false
  end.
End LawnMowerActivity.

(** Home Assistant's [LawnMowerEntityFeature] flags. *)
Module LawnMowerEntityFeature.
Definition START_MOWING : Z := 1.
Definition PAUSE : Z := 2.
Definition DOCK : Z := 4.
End LawnMowerEntityFeature.

(** Python's [x in (a, b, ...)] over an enumeration. *)
Definition py_in {A : Type} (eqb : A -> A -> bool) (x : A) (xs : list A) : bool :=
  existsb (eqb x) xs.

(** ** The device snapshot

    The dictionary [_async_update_data] builds: its three keys, each holding
    a value or Python's [None]. *)
Record Snapshot : Type := mkSnapshot {
  battery_level : option Z;
  activity : option MowerActivity.t;
  state : option MowerState.t
}.

(** ** The state mapper ([AutomowerLawnMower._get_activity])

    [data] is [self.coordinator.data], [None] until a refresh has stored a
    snapshot. *)
Definition _get_activity (data : option Snapshot) : option LawnMowerActivity.t :=
  match data with
  | None => None
  | Some d =>
    match state d with
    | None => None
    | Some st =>
      match activity d with
      | None => None
      | Some act =>
        if MowerState.eqb st MowerState.PAUSED then
          Some LawnMowerActivity.PAUSED
        else if py_in MowerState.eqb st
                  [MowerState.WAIT_FOR_SAFETYPIN; MowerState.STOPPED;
                   MowerState.FATAL_ERROR; MowerState.ERROR] then
          (* This is actually stopped, but that isn't an option *)
          Some LawnMowerActivity.ERROR
        else if py_in MowerState.eqb st
                  [MowerState.PENDING_START; MowerState.IN_OPERATION;
                   MowerState.RESTRICTED] then
          if py_in MowerActivity.eqb act
               [MowerActivity.CHARGING; MowerActivity.PARKED] then
            Some LawnMowerActivity.DOCKED
          else if py_in MowerActivity.eqb act
                    [MowerActivity.GOING_OUT; MowerActivity.MOWING;
                     MowerActivity.GOING_HOME] then
            Some LawnMowerActivity.MOWING
          else
            Some LawnMowerActivity.ERROR
        else
          Some LawnMowerActivity.ERROR
      end
    end
  end.

(** ** Exceptions, outcomes and the event log *)

Inductive exn : Type :=
| UpdateFailed (msg : string)
| BleakError
| TypeError (msg : string).

Inductive outcome (A : Type) : Type :=
| Ok (a : A)
| Raise (e : exn).
Arguments Ok {A} a.
Arguments Raise {A} e.

(** A device handle of the BLE discovery layer. *)
Record BLEDevice : Type := mkBLEDevice { ble_address : string }.

(** One entry per call that leaves the component, with the reply it got, and
    one per state an entity publishes with [async_write_ha_state]. *)
Inductive Event : Type :=
| EvCloseStale (address : string)
| EvCacheLookup (address : string) (found : option BLEDevice)
| EvActiveScan (address : string) (found : option BLEDevice)
| EvConnect (device : option BLEDevice) (ok : bool)
| EvDisconnect
| EvGetModel (model : string)
| EvBatteryLevel (reply : outcome (option Z))
| EvMowerActivity (reply : outcome (option MowerActivity.t))
| EvMowerState (reply : outcome (option MowerState.t))
| EvResume
| EvOverride
| EvPause
| EvPark
| EvRequestRefresh
| EvRefresh
| EvWriteLawnMower (available : bool) (shown : option LawnMowerActivity.t)
| EvWriteBattery (available : bool) (shown : option Z).

(** The protocol commands of the mower client. *)
Definition is_protocol_command (e : Event) : bool :=
  match e with
  | EvResume | EvOverride | EvPause | EvPark => true
  | _ => false
  end.

(** ** The external platform

    Modelled from the spec: the mower client and the discovery layer are
    libraries outside src/.  Their operations are the ones of spec 6, with
    the failure modes of spec 7: the three reads return a value, return
    [None], or raise; [connect] answers with a boolean; lookups answer with a
    device or [None].  [W] is the state of everything outside the component
    (the BLE session, the radio, the device). *)
Class Platform (W : Type) : Type := {
  lib_is_connected : W -> bool;
  lib_connect : option BLEDevice -> W -> bool * W;
  lib_disconnect : W -> W;
  lib_get_model : W -> string * W;
  lib_battery_level : W -> outcome (option Z) * W;
  lib_mower_activity : W -> outcome (option MowerActivity.t) * W;
  lib_mower_state : W -> outcome (option MowerState.t) * W;
  lib_mower_resume : W -> W;
  lib_mower_pause : W -> W;
  lib_mower_park : W -> W;
  lib_mower_override : W -> W;
  lib_close_stale_connections_by_address : string -> W -> W;
  lib_async_ble_device_from_address : string -> W -> option BLEDevice;
  lib_get_device : string -> W -> option BLEDevice * W
}.

(** ** Component state *)

(** Attributes of the lawn mower entity. *)
Record AutomowerLawnMower : Type := mkAutomowerLawnMower {
  lm_attr_name : string;
  lm_attr_unique_id : string;
  lm_attr_supported_features : Z;
  lm_attr_activity : option LawnMowerActivity.t;
  lm_attr_available : bool
}.

(** Attributes of the battery sensor entity. *)
Record BatterySensor : Type := mkBatterySensor {
  bs_attr_name : string;
  bs_attr_unique_id : string;
  bs_attr_native_value : option Z;
  bs_attr_available : bool
}.

(** The coordinator ([address], [model], [data] and, through [world], its
    [mower]) together with the two entities registered on it. *)
Record Hass (W : Type) : Type := mkHass {
  world : W;
  address : string;
  model : string;
  data : option Snapshot;
  lawn_mower : AutomowerLawnMower;
  battery_sensor : BatterySensor
}.
Arguments mkHass {W}.
Arguments world {W}.
Arguments address {W}.
Arguments model {W}.
Arguments data {W}.
Arguments lawn_mower {W}.
Arguments battery_sensor {W}.

Definition set_world {W} (h : Hass W) (w : W) : Hass W :=
  mkHass w (address h) (model h) (data h) (lawn_mower h) (battery_sensor h).

Definition set_data {W} (h : Hass W) (d : option Snapshot) : Hass W :=
  mkHass (world h) (address h) (model h) d (lawn_mower h) (battery_sensor h).

Definition set_lawn_mower {W} (h : Hass W) (e : AutomowerLawnMower) : Hass W :=
  mkHass (world h) (address h) (model h) (data h) e (battery_sensor h).

Definition set_battery_sensor {W} (h : Hass W) (e : BatterySensor) : Hass W :=
  mkHass (world h) (address h) (model h) (data h) (lawn_mower h) e.

Definition set_activity (e : AutomowerLawnMower) (a : option LawnMowerActivity.t)
  : AutomowerLawnMower :=
  mkAutomowerLawnMower (lm_attr_name e) (lm_attr_unique_id e)
    (lm_attr_supported_features e) a (lm_attr_available e).

Definition set_lm_available (e : AutomowerLawnMower) (b : bool)
  : AutomowerLawnMower :=
  mkAutomowerLawnMower (lm_attr_name e) (lm_attr_unique_id e)
    (lm_attr_supported_features e) (lm_attr_activity e) b.

(** ** The monad of the component: state, exceptions, emitted events

    A computation runs from a state to an outcome, the state it leaves
    (also when it raises) and the events it emitted, oldest first. *)
Definition M (S A : Type) : Type := S -> outcome A * S * list Event.

Definition ret {S A} (a : A) : M S A := fun s => (Ok a, s, []).

Definition bind {S A B} (m : M S A) (f : A -> M S B) : M S B :=
  fun s =>
    match m s with
    | (Ok a, s1, ev1) =>
      match f a s1 with
      | (r, s2, ev2) => (r, s2, ev1 ++ ev2)
      end
    | (Raise e, s1, ev1) => (Raise e, s1, ev1)
    end.

Definition raise {S A} (e : exn) : M S A := fun s => (Raise e, s, []).

(** [try: m except BleakError: h]. *)
Definition try_except_BleakError {S A} (m : M S A) (h : M S A) : M S A :=
  fun s =>
    match m s with
    | (Raise BleakError, s1, ev1) =>
      match h s1 with
      | (r, s2, ev2) => (r, s2, ev1 ++ ev2)
      end
    | other => other
    end.

Definition gets {S A} (f : S -> A) : M S A := fun s => (Ok (f s), s, []).
Definition modify {S} (f : S -> S) : M S unit := fun s => (Ok tt, f s, []).
Definition emit {S} (e : Event) : M S unit := fun s => (Ok tt, s, [e]).

Declare Scope py_scope.
Delimit Scope py_scope with py.
Notation "x <- m ;; k" := (bind m (fun x => k))
  (at level 61, m at next level, right associativity) : py_scope.
Notation "m ;; k" := (bind m (fun _ => k))
  (at level 61, right associativity) : py_scope.
Local Open Scope py_scope.

Definition outcome_of {S A} (r : outcome A * S * list Event) : outcome A :=
  fst (fst r).
Definition state_of {S A} (r : outcome A * S * list Event) : S :=
  snd (fst r).
Definition events_of {S A} (r : outcome A * S * list Event) : list Event :=
  snd r.

(** ** Calls that leave the component

    Each one runs the platform operation on [world] and logs the call with
    its reply. *)

Module Mower.
Section client.
Context {W : Type} `{Platform W}.

Definition is_connected : M (Hass W) bool :=
  gets (fun h => lib_is_connected (world h)).

Definition connect (device : option BLEDevice) : M (Hass W) bool :=
  fun h =>
    match lib_connect device (world h) with
    | (ok, w) => (Ok ok, set_world h w, [EvConnect device ok])
    end.

Definition disconnect : M (Hass W) unit :=
  fun h => (Ok tt, set_world h (lib_disconnect (world h)), [EvDisconnect]).

Definition get_model : M (Hass W) string :=
  fun h =>
    match lib_get_model (world h) with
    | (m, w) => (Ok m, set_world h w, [EvGetModel m])
    end.

Definition battery_level : M (Hass W) (option Z) :=
  fun h =>
    match lib_battery_level (world h) with
    | (r, w) => (r, set_world h w, [EvBatteryLevel r])
    end.

Definition mower_activity : M (Hass W) (option MowerActivity.t) :=
  fun h =>
    match lib_mower_activity (world h) with
    | (r, w) => (r, set_world h w, [EvMowerActivity r])
    end.

Definition mower_state : M (Hass W) (option MowerState.t) :=
  fun h =>
    match lib_mower_state (world h) with
    | (r, w) => (r, set_world h w, [EvMowerState r])
    end.

Definition mower_resume : M (Hass W) unit :=
  fun h => (Ok tt, set_world h (lib_mower_resume (world h)), [EvResume]).

Definition mower_pause : M (Hass W) unit :=
  fun h => (Ok tt, set_world h (lib_mower_pause (world h)), [EvPause]).

Definition mower_park : M (Hass W) unit :=
  fun h => (Ok tt, set_world h (lib_mower_park (world h)), [EvPark]).

Definition mower_override : M (Hass W) unit :=
  fun h => (Ok tt, set_world h (lib_mower_override (world h)), [EvOverride]).

End client.
End Mower.

Module bluetooth.
Section discovery.
Context {W : Type} `{Platform W}.

(** The platform scan cache: a synchronous lookup. *)
Definition async_ble_device_from_address (addr : string)
  : M (Hass W) (option BLEDevice) :=
  fun h =>
    let found := lib_async_ble_device_from_address addr (world h) in
    (Ok found, h, [EvCacheLookup addr found]).

End discovery.
End bluetooth.

Module bleak_retry_connector.
Section connector.
Context {W : Type} `{Platform W}.

Definition close_stale_connections_by_address (addr : string)
  : M (Hass W) unit :=
  fun h =>
    (Ok tt, set_world h (lib_close_stale_connections_by_address addr (world h)),
     [EvCloseStale addr]).

(** The active scan. *)
Definition get_device (addr : string) : M (Hass W) (option BLEDevice) :=
  fun h =>
    match lib_get_device addr (world h) with
    | (found, w) => (Ok found, set_world h w, [EvActiveScan addr found])
    end.

End connector.
End bleak_retry_connector.

(** ** Python values *)

(** [data["battery_level"]] on [coordinator.data]. *)
Definition subscript_battery_level (d : option Snapshot) : outcome (option Z) :=
  match d with
  | None => Raise (TypeError "'NoneType' object is not subscriptable")
  | Some snap => Ok (battery_level snap)
  end.

(** [int(v)] on a battery level. *)
Definition py_int (v : option Z) : outcome Z :=
  match v with
  | None => Raise (TypeError "int() argument must be a string, a bytes-like object or a real number, not 'NoneType'")
  | Some z => Ok z
  end.

Definition lift_outcome {S A} (r : outcome A) : M S A := fun s => (r, s, []).

(** [x is not None]. *)
Definition is_not_None {A} (x : option A) : bool :=
  match x with
  | Some _ => true
  | None => false
  end.

Definition option_eqb {A} (eqb : A -> A -> bool) (x : option A) (y : A) : bool :=
  match x with
  | Some v => eqb v y
  | None => false
  end.

(** ** The component *)

Section Integration.
Context {W : Type} `{Platform W}.

(** The refresh methods of the coordinator base class
    ([DataUpdateCoordinator.async_refresh], [.async_request_refresh]): the
    framework decides when the poll runs, whether its result is stored in
    [data] and which listeners are told. *)
Variable DataUpdateCoordinator_async_refresh : M (Hass W) unit.
Variable DataUpdateCoordinator_async_request_refresh : M (Hass W) unit.

Definition async_refresh : M (Hass W) unit :=
  emit EvRefresh ;; DataUpdateCoordinator_async_refresh.

Definition async_request_refresh : M (Hass W) unit :=
  emit EvRequestRefresh ;; DataUpdateCoordinator_async_request_refresh.

(** *** coordinator.py *)

(** [Coordinator._async_find_device] *)
Definition _async_find_device : M (Hass W) unit :=
  addr <- gets address ;;
  bleak_retry_connector.close_stale_connections_by_address addr ;;
  device <- bluetooth.async_ble_device_from_address addr ;;
  match device with
  | None => raise (UpdateFailed "Can't find device")
  | Some _ =>
    ok <- Mower.connect device ;;
    if negb ok then raise (UpdateFailed "Failed to connect") else ret tt
  end.

(** The [try] block of [Coordinator._async_update_data]. *)
Definition read_all : M (Hass W) Snapshot :=
  b <- Mower.battery_level ;;
  (if negb (is_not_None b) then
     _async_find_device ;;
     raise (UpdateFailed "Error getting data from device")
   else ret tt) ;;
  a <- Mower.mower_activity ;;
  (if negb (is_not_None a) then
     _async_find_device ;;
     raise (UpdateFailed "Error getting data from device")
   else ret tt) ;;
  s <- Mower.mower_state ;;
  (if negb (is_not_None s) then
     _async_find_device ;;
     raise (UpdateFailed "Error getting data from device")
   else ret tt) ;;
  ret (mkSnapshot b a s).

(** [Coordinator._async_update_data]: one poll cycle. *)
Definition _async_update_data : M (Hass W) Snapshot :=
  connected <- Mower.is_connected ;;
  (if negb connected then _async_find_device else ret tt) ;;
  d <- try_except_BleakError read_all
         (_async_find_device ;;
          raise (UpdateFailed "Error getting data from device")) ;;
  (* Disconnect if parked to force a reconnect next time *)
  parked_and_connected <-
    (if option_eqb MowerActivity.eqb (activity d) MowerActivity.PARKED
     then Mower.is_connected else ret false) ;;
  (if parked_and_connected then Mower.disconnect else ret tt) ;;
  ret d.

(** [Coordinator.async_shutdown], after the base class has stopped the
    schedule. *)
Definition async_shutdown : M (Hass W) unit :=
  connected <- Mower.is_connected ;;
  if connected then Mower.disconnect else ret tt.

(** [HusqvarnaAutomowerBleEntity.available], inherited unchanged by both
    entities. *)
Definition available (h : Hass W) : bool := lib_is_connected (world h).

(** *** lawn_mower.py *)

(** [AutomowerLawnMower.__init__] *)
Definition AutomowerLawnMower__init__ (unique_id name : string) (features : Z)
  : AutomowerLawnMower :=
  mkAutomowerLawnMower name unique_id features (Some LawnMowerActivity.ERROR) true.

(** [BatterySensor.__init__] *)
Definition BatterySensor__init__ (unique_id name : string) : BatterySensor :=
  mkBatterySensor name unique_id None true.

(** [lawn_mower.async_setup_entry]: the two entities are built and added. *)
Definition lawn_mower_async_setup_entry : M (Hass W) unit :=
  mdl <- gets model ;;
  addr <- gets address ;;
  modify (fun h => set_lawn_mower h
            (AutomowerLawnMower__init__
               (String.append "automower" (String.append mdl (String.append "_" addr)))
               mdl
               (Z.lor (Z.lor LawnMowerEntityFeature.PAUSE
                             LawnMowerEntityFeature.START_MOWING)
                      LawnMowerEntityFeature.DOCK))) ;;
  modify (fun h => set_battery_sensor h
            (BatterySensor__init__
               (String.append "automower"
                  (String.append mdl
                     (String.append "_" (String.append addr "_battery_level"))))
               "Battery Level")).

(** [async_write_ha_state] of the lawn mower entity: what it publishes is
    its availability and its activity attribute. *)
Definition lawn_mower_async_write_ha_state : M (Hass W) unit :=
  fun h => (Ok tt, h,
            [EvWriteLawnMower (available h) (lm_attr_activity (lawn_mower h))]).

(** [async_write_ha_state] of the battery sensor. *)
Definition battery_sensor_async_write_ha_state : M (Hass W) unit :=
  fun h => (Ok tt, h,
            [EvWriteBattery (available h) (bs_attr_native_value (battery_sensor h))]).

Definition set_attr_activity (a : option LawnMowerActivity.t) : M (Hass W) unit :=
  modify (fun h => set_lawn_mower h (set_activity (lawn_mower h) a)).

(** [AutomowerLawnMower._handle_coordinator_update] *)
Definition AutomowerLawnMower_handle_coordinator_update : M (Hass W) unit :=
  d <- gets data ;;
  set_attr_activity (_get_activity d) ;;
  modify (fun h => set_lawn_mower h
            (set_lm_available (lawn_mower h)
               (is_not_None (lm_attr_activity (lawn_mower h))))) ;;
  lawn_mower_async_write_ha_state.

(** [AutomowerLawnMower.async_start_mowing] *)
Definition async_start_mowing : M (Hass W) unit :=
  connected <- Mower.is_connected ;;
  proceed <-
    (if negb connected then
       addr <- gets address ;;
       device <- bluetooth.async_ble_device_from_address addr ;;
       Mower.connect device
     else ret true) ;;
  if negb proceed then ret tt else
  Mower.mower_resume ;;
  current <- gets (fun h => lm_attr_activity (lawn_mower h)) ;;
  (if option_eqb LawnMowerActivity.eqb current LawnMowerActivity.DOCKED
   then Mower.mower_override else ret tt) ;;
  async_request_refresh ;;
  d <- gets data ;;
  set_attr_activity (_get_activity d) ;;
  lawn_mower_async_write_ha_state.

(** [AutomowerLawnMower.async_dock] *)
Definition async_dock : M (Hass W) unit :=
  connected <- Mower.is_connected ;;
  proceed <-
    (if negb connected then
       addr <- gets address ;;
       device <- bluetooth.async_ble_device_from_address addr ;;
       Mower.connect device
     else ret true) ;;
  if negb proceed then ret tt else
  Mower.mower_park ;;
  async_request_refresh ;;
  d <- gets data ;;
  set_attr_activity (_get_activity d) ;;
  lawn_mower_async_write_ha_state.

(** [AutomowerLawnMower.async_pause] *)
Definition async_pause : M (Hass W) unit :=
  connected <- Mower.is_connected ;;
  proceed <-
    (if negb connected then
       addr <- gets address ;;
       device <- bluetooth.async_ble_device_from_address addr ;;
       Mower.connect device
     else ret true) ;;
  if negb proceed then ret tt else
  Mower.mower_pause ;;
  async_request_refresh ;;
  d <- gets data ;;
  set_attr_activity (_get_activity d) ;;
  lawn_mower_async_write_ha_state.

(** [BatterySensor._handle_coordinator_update] *)
Definition BatterySensor_handle_coordinator_update : M (Hass W) unit :=
  d <- gets data ;;
  level <- lift_outcome (subscript_battery_level d) ;;
  n <- lift_outcome (py_int level) ;;
  modify (fun h => set_battery_sensor h
            (mkBatterySensor (bs_attr_name (battery_sensor h))
               (bs_attr_unique_id (battery_sensor h))
               (Some n) (bs_attr_available (battery_sensor h)))) ;;
  modify (fun h => set_battery_sensor h
            (mkBatterySensor (bs_attr_name (battery_sensor h))
               (bs_attr_unique_id (battery_sensor h))
               (bs_attr_native_value (battery_sensor h))
               (is_not_None (bs_attr_native_value (battery_sensor h))))) ;;
  battery_sensor_async_write_ha_state.

(** *** __init__.py *)

(** [async_setup_entry]: the lookup is the scan cache [or] an active scan. *)
Definition async_setup_entry (entry_address : string) (channel_id : Z)
  : M (Hass W) bool :=
  bleak_retry_connector.close_stale_connections_by_address entry_address ;;
  cached <- bluetooth.async_ble_device_from_address entry_address ;;
  device <-
    (if is_not_None cached then ret cached
     else bleak_retry_connector.get_device entry_address) ;;
  ok <- Mower.connect device ;;
  if negb ok then ret false else
  mdl <- Mower.get_model ;;
  modify (fun h => mkHass (world h) entry_address mdl None
                     (lawn_mower h) (battery_sensor h)) ;;
  lawn_mower_async_setup_entry ;;
  async_refresh ;;
  ret true.

End Integration.

(** ** The decision table of spec 4.1

    Written from the words of the spec, to be compared with
    [_get_activity]: five rules, tried in order, the first that matches
    gives the result.  A rule answers [None] when it does not match. *)
Definition Rule : Type :=
  option MowerState.t -> option MowerActivity.t ->
  option (option LawnMowerActivity.t).

(** 1. Either input missing: result absent. *)
Definition rule_missing : Rule :=
  fun s a =>
    match s, a with
    | Some _, Some _ => None
    | _, _ => Some None
    end.

(** 2. [state == PAUSED]: PAUSED. *)
Definition rule_paused : Rule :=
  fun s _ =>
    match s with
    | Some MowerState.PAUSED => Some (Some LawnMowerActivity.PAUSED)
    | _ => None
    end.

(** 3. [state] in WAIT_FOR_SAFETYPIN, STOPPED, FATAL_ERROR, ERROR: ERROR. *)
Definition rule_stopped : Rule :=
  fun s _ =>
    match s with
    | Some MowerState.WAIT_FOR_SAFETYPIN
    | Some MowerState.STOPPED
    | Some MowerState.FATAL_ERROR
    | Some MowerState.ERROR => Some (Some LawnMowerActivity.ERROR)
    | _ => None
    end.

(** 4. [state] in PENDING_START, IN_OPERATION, RESTRICTED: DOCKED when
    [activity] is CHARGING or PARKED, MOWING when it is GOING_OUT, MOWING or
    GOING_HOME. *)
Definition rule_operating : Rule :=
  fun s a =>
    match s with
    | Some MowerState.PENDING_START
    | Some MowerState.IN_OPERATION
    | Some MowerState.RESTRICTED =>
      match a with
      | Some MowerActivity.CHARGING
      | Some MowerActivity.PARKED => Some (Some LawnMowerActivity.DOCKED)
      | Some MowerActivity.GOING_OUT
      | Some MowerActivity.MOWING
      | Some MowerActivity.GOING_HOME => Some (Some LawnMowerActivity.MOWING)
      | _ => None
      end
    | _ => None
    end.

(** 5. Anything else: ERROR. *)
Definition rule_default : Rule :=
  fun _ _ => Some (Some LawnMowerActivity.ERROR).

Definition decision_rules : list Rule :=
  [rule_missing; rule_paused; rule_stopped; rule_operating; rule_default].

Fixpoint first_match (rules : list Rule) (s : option MowerState.t)
    (a : option MowerActivity.t) : option (option LawnMowerActivity.t) :=
  match rules with
  | [] => None
  | r :: rest =>
    match r s a with
    | Some result => Some result
    | None => first_match rest s a
    end
  end.

Definition decision_table (s : option MowerState.t) (a : option MowerActivity.t)
  : option (option LawnMowerActivity.t) :=
  first_match decision_rules s a.

(** ** A scripted platform

    One concrete [Platform], used to run the component on explicit inputs:
    the session is a flag, the replies of the lookups, of [connect] and of
    the three reads are fixed in advance. *)
Record Sim : Type := mkSim {
  sim_connected : bool;
  sim_cache : option BLEDevice;
  sim_scan : option BLEDevice;
  sim_connect_ok : bool;
  sim_battery : outcome (option Z);
  sim_activity : outcome (option MowerActivity.t);
  sim_state : outcome (option MowerState.t)
}.

Definition sim_set_connected (w : Sim) (b : bool) : Sim :=
  mkSim b (sim_cache w) (sim_scan w) (sim_connect_ok w)
        (sim_battery w) (sim_activity w) (sim_state w).

Definition sim_connect (device : option BLEDevice) (w : Sim) : bool * Sim :=
  match device with
  | Some _ =>
    if sim_connect_ok w then (true, sim_set_connected w true) else (false, w)
  | None => (false, w)
  end.

#[export] Instance Sim_Platform : Platform Sim := {|
  lib_is_connected := sim_connected;
  lib_connect := sim_connect;
  lib_disconnect := fun w => sim_set_connected w false;
  lib_get_model := fun w => ("305", w);
  lib_battery_level := fun w => (sim_battery w, w);
  lib_mower_activity := fun w => (sim_activity w, w);
  lib_mower_state := fun w => (sim_state w, w);
  lib_mower_resume := fun w => w;
  lib_mower_pause := fun w => w;
  lib_mower_park := fun w => w;
  lib_mower_override := fun w => w;
  lib_close_stale_connections_by_address := fun _ w => w;
  lib_async_ble_device_from_address := fun _ w => sim_cache w;
  lib_get_device := fun _ w => (sim_scan w, w)
|}.

(** A stand-in for the coordinator base class on a refresh whose poll
    succeeds: the poll runs at once, the snapshot it returns is stored and
    both entities are told.  It is only run on such polls; on a poll that
    raises it leaves [data] as it was and tells nobody, which is not what
    the base class does on a first failure (it tells the listeners). *)
Definition refresh_once {W : Type} `{Platform W} : M (Hass W) unit :=
  fun h =>
    match _async_update_data h with
    | (Ok d, h1, ev1) =>
      match (AutomowerLawnMower_handle_coordinator_update ;;
             BatterySensor_handle_coordinator_update) (set_data h1 (Some d)) with
      | (r, h2, ev2) => (r, h2, ev1 ++ ev2)
      end
    | (Raise _, h1, ev1) => (Ok tt, h1, ev1)
    end.

Definition sim_address : string := "AA:BB:CC:DD:EE:FF".
Definition sim_device : BLEDevice := mkBLEDevice sim_address.

(** The component right after setup, on a given scripted platform. *)
Definition sim_hass (w : Sim) (d : option Snapshot)
    (shown : option LawnMowerActivity.t) : Hass Sim :=
  mkHass w sim_address "305" d
    (mkAutomowerLawnMower "305" "automower305_AA:BB:CC:DD:EE:FF" 7 shown true)
    (mkBatterySensor "Battery Level"
       "automower305_AA:BB:CC:DD:EE:FF_battery_level" None true).

(** Connected, device in the cache, mower mowing. *)
Definition sim_mowing : Sim :=
  mkSim true (Some sim_device) (Some sim_device) true
        (Ok (Some 80%Z)) (Ok (Some MowerActivity.MOWING))
        (Ok (Some MowerState.IN_OPERATION)).

(** Connected, mower parked, all reads answer. *)
Definition sim_parked : Sim :=
  mkSim true (Some sim_device) (Some sim_device) true
        (Ok (Some 100%Z)) (Ok (Some MowerActivity.PARKED))
        (Ok (Some MowerState.RESTRICTED)).


(** Connected, the battery read raises a communication error. *)
Definition sim_battery_error : Sim :=
  mkSim true (Some sim_device) (Some sim_device) true
        (Raise BleakError) (Ok (Some MowerActivity.MOWING))
        (Ok (Some MowerState.IN_OPERATION)).

(** Disconnected, device absent from the scan cache, an active scan would
    find it and a connect would succeed. *)
Definition sim_cache_miss : Sim :=
  mkSim false None (Some sim_device) true
        (Ok (Some 80%Z)) (Ok (Some MowerActivity.MOWING))
        (Ok (Some MowerState.IN_OPERATION)).

(** Disconnected, device in the cache, connect refused. *)
Definition sim_connect_refused : Sim :=
  mkSim false (Some sim_device) (Some sim_device) false
        (Ok (Some 80%Z)) (Ok (Some MowerActivity.MOWING))
        (Ok (Some MowerState.IN_OPERATION)).

(** Disconnected, device in the cache, connect accepted. *)
Definition sim_reconnect : Sim :=
  mkSim false (Some sim_device) (Some sim_device) true
        (Ok (Some 80%Z)) (Ok (Some MowerActivity.MOWING))
        (Ok (Some MowerState.IN_OPERATION)).

(** ** Predicates on runs *)

(** A read that answered [None] or raised a communication error. *)
Definition failed_read (e : Event) : bool :=
  match e with
  | EvBatteryLevel (Ok None) | EvBatteryLevel (Raise BleakError)
  | EvMowerActivity (Ok None) | EvMowerActivity (Raise BleakError)
  | EvMowerState (Ok None) | EvMowerState (Raise BleakError) => true
  | _ => false
  end.

(** The events of a reconnect attempt that looked [found] up: stale
    connections closed, the cache asked, and [connect] called when the
    cache knew the device. *)
Definition reconnect_events (addr : string) (found : option BLEDevice)
    (ok : bool) : list Event :=
  EvCloseStale addr :: EvCacheLookup addr found ::
  match found with
  | None => []
  | Some d => [EvConnect (Some d) ok]
  end.

Definition is_active_scan (e : Event) : bool :=
  match e with
  | EvActiveScan _ _ => true
  | _ => false
  end.

Definition is_UpdateFailed {A} (r : outcome A) : bool :=
  match r with
  | Raise (UpdateFailed _) => true
  | _ => false
  end.

(** The connection check that opens every command: [h1] and [pre] are the
    state and the events once it has let the command through. *)
Inductive passes_connection_check {W : Type} `{Platform W} (h : Hass W)
  : Hass W -> list Event -> Prop :=
| check_connected :
    lib_is_connected (world h) = true ->
    passes_connection_check h h []
| check_connects (w' : W) :
    lib_is_connected (world h) = false ->
    lib_connect (lib_async_ble_device_from_address (address h) (world h))
                (world h) = (true, w') ->
    passes_connection_check h (set_world h w')
      [EvCacheLookup (address h)
         (lib_async_ble_device_from_address (address h) (world h));
       EvConnect (lib_async_ble_device_from_address (address h) (world h)) true].

(** What a command leaves once the refresh it requested has returned in
    state [h3]: the activity recomputed from [data] and published. *)
Definition recomputed {W : Type} `{Platform W} (h3 : Hass W) : Hass W :=
  set_lawn_mower h3 (set_activity (lawn_mower h3) (_get_activity (data h3))).

Definition published {W : Type} `{Platform W} (h3 : Hass W) : Event :=
  EvWriteLawnMower (available h3) (_get_activity (data h3)).

(** A run in which a failed read is followed at once by a reconnect
    attempt, after which nothing more is called. *)
Definition reconnect_follows_failed_read (addr : string) (l : list Event)
  : Prop :=
  exists pre e found ok,
    failed_read e = true /\ l = pre ++ e :: reconnect_events addr found ok.


Definition cache_miss_falls_back_to_scan {W : Type} `{Platform W} : Prop :=
  forall h : Hass W,
    available h = false ->
    lib_async_ble_device_from_address (address h)
      (lib_close_stale_connections_by_address (address h) (world h)) = None ->
    existsb is_active_scan (events_of (_async_update_data h)) = true.

Definition start_always_overrides {W : Type} `{Platform W}
    (refresh : M (Hass W) unit) : Prop :=
  forall h h1 pre,
    passes_connection_check h h1 pre ->
    In EvResume (events_of (async_start_mowing refresh h)) /\
    In EvOverride (events_of (async_start_mowing refresh h)).

(** What a command that got through the connection check must come to:
    [pre] from the check, the protocol commands [cmds] issued in state
    [h2], the refresh requested; when the refresh returns, the activity
    recomputed and published; when it raises, the exception passed on. *)
Definition command_completes {W : Type} `{Platform W}
    (refresh : M (Hass W) unit) (result : outcome unit * Hass W * list Event)
    (pre cmds : list Event) (h2 : Hass W) : Prop :=
  let rr := refresh h2 in
  match outcome_of rr with
  | Ok _ =>
    result =
    (Ok tt, recomputed (state_of rr),
     pre ++ cmds ++ EvRequestRefresh :: events_of rr ++ [published (state_of rr)])
  | Raise e =>
    result =
    (Raise e, state_of rr, pre ++ cmds ++ EvRequestRefresh :: events_of rr)
  end.

(** ** Entry unload ([__init__.async_unload_entry])

    [hass.data[DOMAIN]] is a dictionary from entry ids to coordinators, kept
    here in insertion order; [hass.data] has no [DOMAIN] key until a setup
    has run [setdefault]. *)
Definition dict (V : Type) : Type := list (string * V).

Fixpoint dict_get {V : Type} (k : string) (d : dict V) : option V :=
  match d with
  | [] => None
  | (k', v) :: rest => if String.eqb k k' then Some v else dict_get k rest
  end.

(** [d[k] = v]: the value of an existing key is replaced where it stands, a
    new key goes last. *)
Fixpoint dict_set {V : Type} (k : string) (v : V) (d : dict V) : dict V :=
  match d with
  | [] => [(k, v)]
  | (k', v') :: rest =>
    if String.eqb k k' then (k, v) :: rest else (k', v') :: dict_set k v rest
  end.

(** [d.pop(k)]: the value and the dictionary without the key, or [None]
    where Python raises [KeyError]. *)
Fixpoint dict_pop {V : Type} (k : string) (d : dict V) : option (V * dict V) :=
  match d with
  | [] => None
  | (k', v) :: rest =>
    if String.eqb k k' then Some (v, rest)
    else match dict_pop k rest with
         | Some (found, rest') => Some (found, (k', v) :: rest')
         | None => None
         end
  end.


(** What an unload can end with: the boolean it returns, a [KeyError] of
    one of its two subscripts, or an exception of the shutdown. *)
Inductive unload_outcome : Type :=
| Unloaded (unload_ok : bool)
| KeyError_DOMAIN
| KeyError_entry (entry_id : string)
| ShutdownRaised (e : exn).

(** The state an unload leaves: [hass.data[DOMAIN]], and the coordinator it
    popped, as the shutdown left it. *)
Record UnloadRun (W : Type) : Type := mkUnloadRun {
  unload_result : unload_outcome;
  unload_registry : option (dict (Hass W));
  unload_popped : option (Hass W);
  unload_events : list Event
}.
Arguments mkUnloadRun {W}.
Arguments unload_result {W}.
Arguments unload_registry {W}.
Arguments unload_popped {W}.
Arguments unload_events {W}.

(** [async_unload_entry]; [unload_ok] is what the framework's
    [async_unload_platforms] answered. *)
Definition async_unload_entry {W : Type} `{Platform W} (unload_ok : bool)
    (entry_id : string) (hass_data : option (dict (Hass W))) : UnloadRun W :=
  if unload_ok then
    match hass_data with
    | None => mkUnloadRun KeyError_DOMAIN hass_data None []
    | Some registry =>
      match dict_pop entry_id registry with
      | None => mkUnloadRun (KeyError_entry entry_id) hass_data None []
      | Some (coordinator, registry') =>
        match async_shutdown coordinator with
        | (Ok _, c', ev) =>
          mkUnloadRun (Unloaded unload_ok) (Some registry') (Some c') ev
        | (Raise e, c', ev) =>
          mkUnloadRun (ShutdownRaised e) (Some registry') (Some c') ev
        end
      end
    end
  else mkUnloadRun (Unloaded unload_ok) hass_data None [].

(** ** More predicates on runs *)

(** The calls a poll cycle may make: discovery through the cache, connect
    and disconnect, and the three reads. *)
Definition is_poll_call (e : Event) : bool :=
  match e with
  | EvCloseStale _ | EvCacheLookup _ _ | EvConnect _ _ | EvDisconnect
  | EvBatteryLevel _ | EvMowerActivity _ | EvMowerState _ => true
  | _ => false
  end.

(** A read that raised [e]. *)
Definition read_raised (e : exn) (ev : Event) : Prop :=
  ev = EvBatteryLevel (Raise e) \/ ev = EvMowerActivity (Raise e) \/
  ev = EvMowerState (Raise e).

(** The three reads of one cycle, in the order the cycle makes them. *)
Definition reads_of (d : Snapshot) : list Event :=
  [EvBatteryLevel (Ok (battery_level d)); EvMowerActivity (Ok (activity d));
   EvMowerState (Ok (state d))].

(** The states of spec 4.1's rule 3 and rule 4. *)
Definition stopped_states : list MowerState.t :=
  [MowerState.WAIT_FOR_SAFETYPIN; MowerState.STOPPED; MowerState.FATAL_ERROR;
   MowerState.ERROR].

Definition operating_states : list MowerState.t :=
  [MowerState.PENDING_START; MowerState.IN_OPERATION; MowerState.RESTRICTED].

Definition docked_activities : list MowerActivity.t :=
  [MowerActivity.CHARGING; MowerActivity.PARKED].

Definition mowing_activities : list MowerActivity.t :=
  [MowerActivity.GOING_OUT; MowerActivity.MOWING; MowerActivity.GOING_HOME].

(** Connected, the state read raises an exception that is no communication
    error. *)
Definition sim_state_type_error : Sim :=
  mkSim true (Some sim_device) (Some sim_device) true
        (Ok (Some 80%Z)) (Ok (Some MowerActivity.MOWING))
        (Raise (TypeError "bad reply")).

(** The snapshots the scripted mowers give. *)
Definition snapshot_mowing : Snapshot :=
  mkSnapshot (Some 80%Z) (Some MowerActivity.MOWING)
             (Some MowerState.IN_OPERATION).

Definition snapshot_parked : Snapshot :=
  mkSnapshot (Some 100%Z) (Some MowerActivity.PARKED)
             (Some MowerState.RESTRICTED).

(** * Properties *)

(** ** Proof steps shared by the runs below *)

Ltac unfold_calls :=
  cbv [_async_update_data read_all _async_find_device async_shutdown
       Mower.is_connected Mower.connect Mower.disconnect Mower.get_model
       Mower.battery_level Mower.mower_activity Mower.mower_state
       Mower.mower_resume Mower.mower_pause Mower.mower_park
       Mower.mower_override
       bluetooth.async_ble_device_from_address
       bleak_retry_connector.close_stale_connections_by_address
       bleak_retry_connector.get_device
       bind ret raise gets modify emit try_except_BleakError lift_outcome
       outcome_of state_of events_of] in *.

(* One reply of the platform at a time, innermost call first. *)
Ltac case_reply :=
  match goal with
  | |- context [match ?x with _ => _ end] =>
    lazymatch x with
    | context [match _ with _ => _ end] => fail
    | _ => destruct x eqn:?
    end
  end; cbn [negb is_not_None fst snd app].

Ltac destruct_replies :=
  repeat match goal with
         | a : option _ |- _ => destruct a
         | e : exn |- _ => destruct e
         end.

(** ** The state mapper *)

Lemma get_activity_absent_state (b : option Z) (a : option MowerActivity.t) :
  _get_activity (Some (mkSnapshot b a None)) = None.
Proof. reflexivity. Qed.

Lemma get_activity_absent_activity (b : option Z) (s : option MowerState.t) :
  _get_activity (Some (mkSnapshot b None s)) = None.
Proof. destruct s; reflexivity. Qed.

Lemma get_activity_present (b : option Z) (st : MowerState.t)
    (act : MowerActivity.t) :
  Some (_get_activity (Some (mkSnapshot b (Some act) (Some st)))) =
  decision_table (Some st) (Some act).
Proof.
  destruct st; destruct act; reflexivity.
Qed.

(** C1: for every (state, activity) pair the mapper returns what the
    decision table of spec 4.1 gives when its rules are tried in order and
    the first match wins; with no snapshot at all it returns absent. *)
Theorem get_activity_is_decision_table :
  _get_activity None = None /\
  forall (b : option Z) (s : option MowerState.t) (a : option MowerActivity.t),
    decision_table s a = Some (_get_activity (Some (mkSnapshot b a s))).
Proof.
  split; [reflexivity|].
  intros b [st|] [act|].
  - symmetry. apply get_activity_present.
  - reflexivity.
  - reflexivity.
  - reflexivity.
Qed.

(** The table of spec 4.1, row by row, on the mapper itself. *)
Lemma get_activity_rows (b : option Z) (st : MowerState.t)
    (act : MowerActivity.t) :
  let result := _get_activity (Some (mkSnapshot b (Some act) (Some st))) in
  (st = MowerState.PAUSED -> result = Some LawnMowerActivity.PAUSED) /\
  (In st [MowerState.WAIT_FOR_SAFETYPIN; MowerState.STOPPED;
          MowerState.FATAL_ERROR; MowerState.ERROR] ->
   result = Some LawnMowerActivity.ERROR) /\
  (In st [MowerState.PENDING_START; MowerState.IN_OPERATION;
          MowerState.RESTRICTED] ->
   (In act [MowerActivity.CHARGING; MowerActivity.PARKED] ->
    result = Some LawnMowerActivity.DOCKED) /\
   (In act [MowerActivity.GOING_OUT; MowerActivity.MOWING;
            MowerActivity.GOING_HOME] ->
    result = Some LawnMowerActivity.MOWING) /\
   ((exists n, act = MowerActivity.OTHER n) ->
    result = Some LawnMowerActivity.ERROR)) /\
  ((exists n, st = MowerState.OTHER n) ->
   result = Some LawnMowerActivity.ERROR).
Proof.
  simpl. split; [|split; [|split]]; intros Hcase.
  - subst st. reflexivity.
  - destruct Hcase as [<-|[<-|[<-|[<-|[]]]]]; reflexivity.
  - split; [|split]; intros Hact.
    + destruct Hcase as [<-|[<-|[<-|[]]]];
        destruct Hact as [<-|[<-|[]]]; reflexivity.
    + destruct Hcase as [<-|[<-|[<-|[]]]];
        destruct Hact as [<-|[<-|[<-|[]]]]; reflexivity.
    + destruct Hact as [n ->].
      destruct Hcase as [<-|[<-|[<-|[]]]]; reflexivity.
  - destruct Hcase as [n ->]. reflexivity.
Qed.

(** ** The poller *)

Section Poller.
Context {W : Type} `{Platform W}.

(** [_async_find_device], by cases on what the cache and [connect] answer. *)
Lemma find_device_run (h : Hass W) :
  _async_find_device h =
  let addr := address h in
  let w1 := lib_close_stale_connections_by_address addr (world h) in
  match lib_async_ble_device_from_address addr w1 with
  | None =>
    (Raise (UpdateFailed "Can't find device"), set_world h w1,
     [EvCloseStale addr; EvCacheLookup addr None])
  | Some d =>
    let (ok, w2) := lib_connect (Some d) w1 in
    (if ok then Ok tt else Raise (UpdateFailed "Failed to connect"),
     set_world h w2,
     [EvCloseStale addr; EvCacheLookup addr (Some d); EvConnect (Some d) ok])
  end.
Proof.
  unfold_calls. cbn [world address set_world].
  destruct (lib_async_ble_device_from_address _ _) as [d|]; [|reflexivity].
  destruct (lib_connect _ _) as [[|] w2]; reflexivity.
Qed.

(** A reconnect attempt never scans, whatever it finds. *)
Lemma find_device_events (h : Hass W) :
  exists found ok,
    events_of (_async_find_device h) = reconnect_events (address h) found ok.
Proof.
  rewrite find_device_run. cbv zeta.
  destruct (lib_async_ble_device_from_address _ _) as [d|].
  - destruct (lib_connect _ _) as [ok w2]. exists (Some d), ok. reflexivity.
  - exists None, false. reflexivity.
Qed.

Lemma reconnect_follows_found addr e d ok :
  failed_read e = true ->
  reconnect_follows_failed_read addr
    [e; EvCloseStale addr; EvCacheLookup addr (Some d); EvConnect (Some d) ok].
Proof. intros He. exists [], e, (Some d), ok. split; [exact He|reflexivity]. Qed.

Lemma reconnect_follows_missing addr e :
  failed_read e = true ->
  reconnect_follows_failed_read addr
    [e; EvCloseStale addr; EvCacheLookup addr None].
Proof. intros He. exists [], e, None, false. split; [exact He|reflexivity]. Qed.

Lemma reconnect_follows_later addr x l :
  reconnect_follows_failed_read addr l ->
  reconnect_follows_failed_read addr (x :: l).
Proof.
  intros (pre & e & found & ok & He & ->).
  exists (x :: pre), e, found, ok. split; [exact He|reflexivity].
Qed.

Ltac split_events :=
  repeat first
    [ solve [ apply reconnect_follows_found; reflexivity ]
    | solve [ apply reconnect_follows_missing; reflexivity ]
    | apply reconnect_follows_later ].

(** C3: a poll cycle in which one of the three reads answers [None] or
    raises a communication error ends by raising [UpdateFailed], and the
    last thing it did, right after the failed read, is a reconnect attempt
    (stale connections closed, the device looked up, [connect] called when
    it was found). *)
Theorem failed_read_ends_in_update_failure (h : Hass W) :
  existsb failed_read (events_of (_async_update_data h)) = true ->
  is_UpdateFailed (outcome_of (_async_update_data h)) = true /\
  reconnect_follows_failed_read (address h) (events_of (_async_update_data h)).
Proof.
  unfold_calls. simpl.
  repeat case_reply.
  all: cbn [address set_world world] in *.
  all: subst.
  all: destruct_replies.
  all: cbn [existsb failed_read orb negb is_not_None] in *.
  all: try discriminate.
  all: intros _; split; [reflexivity|].
  all: split_events.
Qed.

(** The final disconnect is reached only by a cycle whose three reads
    answered; a cycle that fails a read ends in the reconnect instead. *)
Section Parked.
Hypothesis disconnect_closes :
  forall w : W, lib_is_connected (lib_disconnect w) = false.
Hypothesis accepted_connect_opens :
  forall (d : option BLEDevice) (w w' : W),
    lib_connect d w = (true, w') -> lib_is_connected w' = true.

End Parked.

(** C4, amended: a poll tick that starts disconnected closes stale
    connections and looks the device up in the platform scan cache, and
    never scans.  When the cache does not know the device the cycle aborts
    at once with [UpdateFailed], without calling [connect]; when [connect]
    refuses it aborts with [UpdateFailed]; in both cases no read is made
    and the handle is left as these two calls left it, disconnected when a
    refused [connect] and the closing of stale connections do not open a
    session.  When [connect] accepts, the cycle goes on to the reads. *)
Theorem disconnected_tick_uses_cache_only (h : Hass W) :
  available h = false ->
  (forall a w, lib_is_connected w = false ->
               lib_is_connected (lib_close_stale_connections_by_address a w) = false) ->
  (forall d w, lib_is_connected w = false ->
               fst (lib_connect d w) = false ->
               lib_is_connected (snd (lib_connect d w)) = false) ->
  let addr := address h in
  let w1 := lib_close_stale_connections_by_address addr (world h) in
  let r := _async_update_data h in
  existsb is_active_scan (events_of r) = false /\
  match lib_async_ble_device_from_address addr w1 with
  | None =>
    r = (Raise (UpdateFailed "Can't find device"), set_world h w1,
         [EvCloseStale addr; EvCacheLookup addr None]) /\
    available (state_of r) = false
  | Some d =>
    match lib_connect (Some d) w1 with
    | (false, w2) =>
      r = (Raise (UpdateFailed "Failed to connect"), set_world h w2,
           [EvCloseStale addr; EvCacheLookup addr (Some d);
            EvConnect (Some d) false]) /\
      available (state_of r) = false
    | (true, w2) =>
      exists reply rest,
        events_of r =
        EvCloseStale addr :: EvCacheLookup addr (Some d) ::
        EvConnect (Some d) true :: EvBatteryLevel reply :: rest
    end
  end.
Proof.
  intros Hoff Hstale Hrefused addr w1 r. unfold available in *.
  assert (Hw1 : lib_is_connected w1 = false) by (apply Hstale; exact Hoff).
  split.
  - subst r addr w1. clear Hw1 Hstale Hrefused. revert Hoff.
    unfold_calls. simpl.
    repeat case_reply.
    all: intros _; reflexivity.
  - subst r.
    destruct (lib_async_ble_device_from_address addr w1) as [d|] eqn:Hfound.
    + pose proof (Hrefused (Some d) w1 Hw1) as Hconn.
      destruct (lib_connect (Some d) w1) as [[|] w2] eqn:Hc.
      * subst addr w1. unfold_calls. cbn [world address set_world].
        rewrite Hoff. cbn [negb]. rewrite Hfound.
        cbn [world address set_world]. rewrite Hc.
        cbn [negb app world address set_world].
        destruct (lib_battery_level w2) as [reply w3].
        exists reply.
        repeat case_reply; eexists; reflexivity.
      * split.
        -- subst addr w1. unfold_calls. cbn [world address set_world].
           rewrite Hoff. cbn [negb]. rewrite Hfound.
           cbn [world address set_world]. rewrite Hc. reflexivity.
        -- subst addr w1. unfold_calls. cbn [world address set_world].
           rewrite Hoff. cbn [negb]. rewrite Hfound.
           cbn [world address set_world]. rewrite Hc.
           cbn [negb fst snd world set_world].
           apply Hconn. reflexivity.
    + split.
      * subst addr w1. unfold_calls. cbn [world address set_world].
        rewrite Hoff. cbn [negb]. rewrite Hfound. reflexivity.
      * subst addr w1. unfold_calls. cbn [world address set_world].
        rewrite Hoff. cbn [negb]. rewrite Hfound.
        cbn [fst snd world set_world]. exact Hw1.
Qed.

End Poller.
(** ** The entities and their commands *)

Section Commands.
Context {W : Type} `{Platform W}.
Variable refresh : M (Hass W) unit.
Variable first_refresh : M (Hass W) unit.

(* A command, down to the calls it makes. *)
Ltac unfold_command :=
  cbv [async_start_mowing async_dock async_pause async_request_refresh
       async_refresh async_setup_entry lawn_mower_async_setup_entry
       set_attr_activity lawn_mower_async_write_ha_state
       Mower.is_connected Mower.connect Mower.get_model
       Mower.mower_resume Mower.mower_pause Mower.mower_park
       Mower.mower_override
       bluetooth.async_ble_device_from_address
       bleak_retry_connector.close_stale_connections_by_address
       bleak_retry_connector.get_device
       bind ret raise gets modify emit] in *.

Lemma set_world_twice (h : Hass W) (a b : W) :
  set_world (set_world h a) b = set_world h b.
Proof. reflexivity. Qed.

Lemma world_set_world (h : Hass W) (a : W) : world (set_world h a) = a.
Proof. reflexivity. Qed.

Lemma address_set_world (h : Hass W) (a : W) :
  address (set_world h a) = address h.
Proof. reflexivity. Qed.

Lemma lawn_mower_set_world (h : Hass W) (a : W) :
  lawn_mower (set_world h a) = lawn_mower h.
Proof. reflexivity. Qed.

Create Rewrite HintDb hass.
#[local] Hint Rewrite set_world_twice world_set_world address_set_world
  lawn_mower_set_world : hass.

(** A command whose connection check fails stops there: one cache lookup,
    one refused [connect], nothing else. *)
Lemma refused_command_run (h : Hass W) :
  let found := lib_async_ble_device_from_address (address h) (world h) in
  available h = false ->
  fst (lib_connect found (world h)) = false ->
  let quiet :=
    (Ok tt, set_world h (snd (lib_connect found (world h))),
     [EvCacheLookup (address h) found; EvConnect found false]) in
  async_start_mowing refresh h = quiet /\
  async_dock refresh h = quiet /\
  async_pause refresh h = quiet.
Proof.
  intros found Hoff Hrefused quiet. subst quiet found.
  unfold available in Hoff.
  unfold_command. rewrite Hoff. cbn [negb].
  destruct (lib_connect _ _) as [ok w'].
  cbn [fst snd] in *. subst ok. cbn [negb app].
  repeat split.
Qed.

(** C5: a command (start, dock, pause) invoked while the handle is
    disconnected and whose connect attempt fails returns without issuing any
    protocol command; both entities and the snapshot are as before, and the
    platform is as the refused [connect] left it, so still disconnected when
    a refused [connect] opens no session.  Conversely a run of a command
    that contains a protocol command started connected or got its
    [connect] accepted. *)
Theorem command_needs_connection (h : Hass W) :
  let found := lib_async_ble_device_from_address (address h) (world h) in
  let refused := fst (lib_connect found (world h)) = false in
  let quiet :=
    (Ok tt, set_world h (snd (lib_connect found (world h))),
     [EvCacheLookup (address h) found; EvConnect found false]) in
  (available h = false -> refused ->
   (async_start_mowing refresh h = quiet /\
    async_dock refresh h = quiet /\
    async_pause refresh h = quiet) /\
   existsb is_protocol_command (events_of quiet) = false /\
   lawn_mower (state_of quiet) = lawn_mower h /\
   battery_sensor (state_of quiet) = battery_sensor h /\
   data (state_of quiet) = data h /\
   ((forall d w, lib_is_connected w = false ->
                 fst (lib_connect d w) = false ->
                 lib_is_connected (snd (lib_connect d w)) = false) ->
    available (state_of quiet) = false)) /\
  (forall command,
     In command [async_start_mowing refresh; async_dock refresh;
                 async_pause refresh] ->
     existsb is_protocol_command (events_of (command h)) = true ->
     available h = true \/ fst (lib_connect found (world h)) = true).
Proof.
  intros found refused quiet. subst refused. split.
  - intros Hoff Hrefused.
    split; [exact (refused_command_run h Hoff Hrefused)|].
    repeat split.
    intros Hlaw. unfold available in *. apply Hlaw; assumption.
  - intros command Hin Hcmd.
    destruct (available h) eqn:Hoff; [left; reflexivity|].
    destruct (fst (lib_connect found (world h))) eqn:Hrefused;
      [right; reflexivity|].
    destruct (refused_command_run h Hoff Hrefused) as (Hs & Hd & Hp).
    fold found in Hs, Hd, Hp.
    cbn [In] in Hin.
    destruct Hin as [<-|[<-|[<-|[]]]];
      [rewrite Hs in Hcmd|rewrite Hd in Hcmd|rewrite Hp in Hcmd];
      discriminate Hcmd.
Qed.

(** C6, amended: a start command that gets through the connection check
    issues resume, then override only when the entity's activity attribute
    is DOCKED at that moment, then requests a refresh; when the refresh
    returns, the activity is recomputed from the coordinator's snapshot and
    published (when it raises, the exception is passed on).  Dock and pause
    issue exactly park and pause, followed by the same
    refresh, recompute, publish sequence. *)
Theorem commands_issue_refresh_recompute_publish (h h1 : Hass W)
    (pre : list Event) :
  passes_connection_check h h1 pre ->
  let docked :=
    option_eqb LawnMowerActivity.eqb (lm_attr_activity (lawn_mower h))
               LawnMowerActivity.DOCKED in
  command_completes refresh (async_start_mowing refresh h) pre
    (EvResume :: (if docked then [EvOverride] else []))
    (set_world h1
       ((if docked then lib_mower_override else fun w => w)
          (lib_mower_resume (world h1)))) /\
  command_completes refresh (async_dock refresh h) pre [EvPark]
    (set_world h1 (lib_mower_park (world h1))) /\
  command_completes refresh (async_pause refresh h) pre [EvPause]
    (set_world h1 (lib_mower_pause (world h1))).
Proof.
  intros Hcheck docked. subst docked.
  unfold command_completes, recomputed, published, available.
  destruct Hcheck as [Hon | w' Hoff Hconn].
  - unfold_command. rewrite Hon.
    unfold outcome_of, state_of, events_of.
    autorewrite with hass. cbn [negb app].
    destruct (option_eqb _ _ _).
    all: autorewrite with hass.
    all: repeat split.
    all: match goal with
         | |- context [refresh ?x] => destruct (refresh x) as [[[[]|e] h3] ev]
         end.
    all: cbn [fst snd app].
    all: reflexivity.
  - unfold_command. rewrite Hoff. cbn [negb]. rewrite Hconn.
    unfold outcome_of, state_of, events_of.
    autorewrite with hass. cbn [negb app].
    destruct (option_eqb _ _ _).
    all: autorewrite with hass.
    all: repeat split.
    all: match goal with
         | |- context [refresh ?x] => destruct (refresh x) as [[[[]|e] h3] ev]
         end.
    all: cbn [fst snd app].
    all: reflexivity.
Qed.


(** C9: a command invoked while disconnected looks the device up in the
    platform scan cache only and hands what it found, absent or not,
    straight to [connect]: its run starts with the cache lookup followed by
    the [connect] call on the lookup's answer, and a protocol command
    follows only when [connect] accepted.  Setup, on a cache miss, does make
    an active scan before it connects. *)
Theorem command_lookup_is_cache_only (h : Hass W) :
  available h = false ->
  let addr := address h in
  let found := lib_async_ble_device_from_address addr (world h) in
  let ok := fst (lib_connect found (world h)) in
  (exists rest,
     events_of (async_start_mowing refresh h) =
     EvCacheLookup addr found :: EvConnect found ok ::
     (if ok then EvResume :: rest else [])) /\
  (exists rest,
     events_of (async_dock refresh h) =
     EvCacheLookup addr found :: EvConnect found ok ::
     (if ok then EvPark :: rest else [])) /\
  (exists rest,
     events_of (async_pause refresh h) =
     EvCacheLookup addr found :: EvConnect found ok ::
     (if ok then EvPause :: rest else [])) /\
  (forall entry_address channel_id,
     lib_async_ble_device_from_address entry_address
       (lib_close_stale_connections_by_address entry_address (world h)) = None ->
     exists scanned connected rest,
       events_of (async_setup_entry first_refresh entry_address channel_id h) =
       EvCloseStale entry_address :: EvCacheLookup entry_address None ::
       EvActiveScan entry_address scanned :: EvConnect scanned connected ::
       rest).
Proof.
  intros Hoff addr found ok. subst ok found addr.
  unfold available in Hoff.
  repeat split.
  - unfold_command. rewrite Hoff. cbn [negb].
    destruct (lib_connect _ _) as [[|] w']; cbn [fst negb app].
    + unfold events_of. repeat case_reply; eexists; reflexivity.
    + exists []. reflexivity.
  - unfold_command. rewrite Hoff. cbn [negb].
    destruct (lib_connect _ _) as [[|] w']; cbn [fst negb app].
    + unfold events_of. repeat case_reply; eexists; reflexivity.
    + exists []. reflexivity.
  - unfold_command. rewrite Hoff. cbn [negb].
    destruct (lib_connect _ _) as [[|] w']; cbn [fst negb app].
    + unfold events_of. repeat case_reply; eexists; reflexivity.
    + exists []. reflexivity.
  - intros entry_address channel_id Hmiss.
    unfold_command. autorewrite with hass. rewrite Hmiss.
    cbn [is_not_None]. unfold events_of.
    repeat case_reply; do 3 eexists; reflexivity.
Qed.

(** C7: while the connection handle is disconnected (the client's
    [is_connected] answers false) both entities report themselves
    unavailable, whatever the snapshot and their own attributes hold: the
    update handlers publish an unavailable state even when the attribute
    they have just set says available. *)
Theorem unavailable_while_disconnected (h : Hass W) :
  lib_is_connected (world h) = false ->
  available h = false /\
  (forall d lm bs,
     available (mkHass (world h) (address h) (model h) d lm bs) = false) /\
  (exists lm',
     AutomowerLawnMower_handle_coordinator_update h =
     (Ok tt, set_lawn_mower h lm',
      [EvWriteLawnMower false (_get_activity (data h))]) /\
     lm_attr_available lm' = is_not_None (_get_activity (data h))) /\
  (forall n a s,
     data h = Some (mkSnapshot (Some n) a s) ->
     exists bs',
       BatterySensor_handle_coordinator_update h =
       (Ok tt, set_battery_sensor h bs', [EvWriteBattery false (Some n)]) /\
       bs_attr_available bs' = true).
Proof.
  intros Hoff. split; [|split; [|split]].
  - unfold available. exact Hoff.
  - intros d lm bs. unfold available. cbn [world]. exact Hoff.
  - eexists. split.
    + cbv [AutomowerLawnMower_handle_coordinator_update set_attr_activity
           lawn_mower_async_write_ha_state bind gets modify].
      cbn [app]. unfold available.
      cbn [world set_lawn_mower lawn_mower lm_attr_activity set_activity
           set_lm_available].
      rewrite Hoff. reflexivity.
    + reflexivity.
  - intros n a s Hdata. eexists. split.
    + cbv [BatterySensor_handle_coordinator_update
           battery_sensor_async_write_ha_state lift_outcome bind gets modify].
      rewrite Hdata.
      cbn [subscript_battery_level py_int battery_level app].
      unfold available.
      cbn [world set_battery_sensor battery_sensor bs_attr_native_value].
      rewrite Hoff. reflexivity.
    + reflexivity.
Qed.

(** C8: the battery sensor's update handler converts the battery level
    without a guard.  With no snapshot, or with an absent battery level, it
    raises [TypeError] and leaves the sensor as it was, publishing nothing;
    with a battery level it stores it, and the availability attribute it
    then sets is always true. *)
Theorem battery_handler_is_unguarded (w : W) (addr mdl : string)
    (lm : AutomowerLawnMower) (bs : BatterySensor) :
  (exists msg,
     BatterySensor_handle_coordinator_update (mkHass w addr mdl None lm bs) =
     (Raise (TypeError msg), mkHass w addr mdl None lm bs, [])) /\
  (forall a s,
     exists msg,
       BatterySensor_handle_coordinator_update
         (mkHass w addr mdl (Some (mkSnapshot None a s)) lm bs) =
       (Raise (TypeError msg),
        mkHass w addr mdl (Some (mkSnapshot None a s)) lm bs, [])) /\
  (forall n a s,
     BatterySensor_handle_coordinator_update
       (mkHass w addr mdl (Some (mkSnapshot (Some n) a s)) lm bs) =
     (Ok tt,
      mkHass w addr mdl (Some (mkSnapshot (Some n) a s)) lm
        (mkBatterySensor (bs_attr_name bs) (bs_attr_unique_id bs) (Some n) true),
      [EvWriteBattery (lib_is_connected w) (Some n)])).
Proof.
  split; [|split].
  - eexists. reflexivity.
  - intros a s. eexists. reflexivity.
  - intros n a s. reflexivity.
Qed.

(** C10: a freshly built lawn mower entity shows ERROR, although the mapper
    answers absent when there is no snapshot; this also holds for the entity
    that the platform setup adds.  The first update handler run replaces the
    attribute by the mapper's answer on the coordinator's data. *)
Theorem initial_activity_is_error (unique_id name : string) (features : Z)
    (h : Hass W) :
  lm_attr_activity (AutomowerLawnMower__init__ unique_id name features) =
  Some LawnMowerActivity.ERROR /\
  _get_activity None = None /\
  lm_attr_activity
    (lawn_mower (state_of (lawn_mower_async_setup_entry (set_data h None)))) =
  Some LawnMowerActivity.ERROR /\
  lm_attr_activity
    (lawn_mower (state_of (AutomowerLawnMower_handle_coordinator_update h))) =
  _get_activity (data h).
Proof.
  repeat split.
Qed.

End Commands.

(** * Runs on the scripted platform *)

(** The examples of spec 8, on the mapper. *)
Example pending_start_charging_is_docked :
  _get_activity
    (Some (mkSnapshot (Some 50%Z) (Some MowerActivity.CHARGING)
                      (Some MowerState.PENDING_START))) =
  Some LawnMowerActivity.DOCKED.
Proof. reflexivity. Qed.

Example in_operation_mowing_is_mowing :
  _get_activity
    (Some (mkSnapshot (Some 50%Z) (Some MowerActivity.MOWING)
                      (Some MowerState.IN_OPERATION))) =
  Some LawnMowerActivity.MOWING.
Proof. reflexivity. Qed.

Example stopped_is_error (a : MowerActivity.t) :
  _get_activity
    (Some (mkSnapshot (Some 50%Z) (Some a) (Some MowerState.STOPPED))) =
  Some LawnMowerActivity.ERROR.
Proof. reflexivity. Qed.

Example paused_is_paused (a : MowerActivity.t) :
  _get_activity
    (Some (mkSnapshot (Some 50%Z) (Some a) (Some MowerState.PAUSED))) =
  Some LawnMowerActivity.PAUSED.
Proof. reflexivity. Qed.

Example restricted_other_activity_is_error (n : nat) :
  _get_activity
    (Some (mkSnapshot (Some 50%Z) (Some (MowerActivity.OTHER n))
                      (Some MowerState.RESTRICTED))) =
  Some LawnMowerActivity.ERROR.
Proof. reflexivity. Qed.

(** The scripted platform keeps the laws the theorems ask of a platform. *)
Lemma sim_disconnect_closes (w : Sim) :
  lib_is_connected (lib_disconnect w) = false.
Proof. reflexivity. Qed.

Lemma sim_close_stale_opens_nothing (a : string) (w : Sim) :
  lib_is_connected w = false ->
  lib_is_connected (lib_close_stale_connections_by_address a w) = false.
Proof. intros Hoff. exact Hoff. Qed.

Lemma sim_refused_connect_opens_nothing (d : option BLEDevice) (w : Sim) :
  lib_is_connected w = false ->
  fst (lib_connect d w) = false ->
  lib_is_connected (snd (lib_connect d w)) = false.
Proof.
  intros Hoff. simpl. unfold sim_connect.
  destruct d as [dev|]; [|intros _; exact Hoff].
  destruct (sim_connect_ok w); [discriminate|intros _; exact Hoff].
Qed.




(** A battery read that raises a communication error. *)
Lemma failed_read_ends_in_update_failure_witness :
  is_UpdateFailed
    (outcome_of (_async_update_data (sim_hass sim_battery_error None None))) =
  true /\
  reconnect_follows_failed_read sim_address
    (events_of (_async_update_data (sim_hass sim_battery_error None None))).
Proof.
  apply (failed_read_ends_in_update_failure
           (sim_hass sim_battery_error None None)).
  reflexivity.
Defined.

(** A disconnected tick with the device missing from the cache. *)
Lemma disconnected_tick_uses_cache_only_witness :
  existsb is_active_scan
    (events_of (_async_update_data (sim_hass sim_cache_miss None None))) =
  false /\
  _async_update_data (sim_hass sim_cache_miss None None) =
  (Raise (UpdateFailed "Can't find device"),
   sim_hass sim_cache_miss None None,
   [EvCloseStale sim_address; EvCacheLookup sim_address None]).
Proof.
  destruct (@disconnected_tick_uses_cache_only Sim Sim_Platform
              (sim_hass sim_cache_miss None None) eq_refl
              sim_close_stale_opens_nothing
              sim_refused_connect_opens_nothing) as [Hscan Hrun].
  split; [exact Hscan|].
  simpl in Hrun. destruct Hrun as [Hrun _]. exact Hrun.
Defined.

(** C4 as the spec words it fails: the cache does not know the device, an
    active scan would find it, and the cycle aborts without scanning. *)
Lemma cache_miss_aborts_without_scan :
  ~ @cache_miss_falls_back_to_scan Sim Sim_Platform.
Proof.
  intros Hclaim.
  specialize (Hclaim (sim_hass sim_cache_miss None None) eq_refl eq_refl).
  vm_compute in Hclaim. discriminate Hclaim.
Qed.

Example cache_miss_scan_would_find :
  fst (lib_get_device sim_address sim_cache_miss) = Some sim_device /\
  outcome_of (_async_update_data (sim_hass sim_cache_miss None None)) =
  Raise (UpdateFailed "Can't find device").
Proof. split; reflexivity. Qed.

(** A start command while disconnected, the connect refused. *)
Lemma command_needs_connection_witness :
  async_start_mowing refresh_once
    (sim_hass sim_connect_refused None (Some LawnMowerActivity.ERROR)) =
  (Ok tt, sim_hass sim_connect_refused None (Some LawnMowerActivity.ERROR),
   [EvCacheLookup sim_address (Some sim_device);
    EvConnect (Some sim_device) false]) /\
  available
    (state_of
       (async_start_mowing refresh_once
          (sim_hass sim_connect_refused None (Some LawnMowerActivity.ERROR)))) =
  false.
Proof.
  destruct (@command_needs_connection Sim Sim_Platform refresh_once
              (sim_hass sim_connect_refused None (Some LawnMowerActivity.ERROR)))
    as [Hquiet _].
  destruct (Hquiet eq_refl eq_refl)
    as ((Hstart & _ & _) & _ & _ & _ & _ & Hclosed).
  split.
  - exact Hstart.
  - rewrite Hstart. exact (Hclosed sim_refused_connect_opens_nothing).
Defined.

(** A start command on a connected, mowing mower whose entity still shows
    its initial ERROR: resume, no override, refresh, publish. *)
Lemma commands_issue_refresh_recompute_publish_witness :
  command_completes refresh_once
    (async_start_mowing refresh_once
       (sim_hass sim_mowing None (Some LawnMowerActivity.ERROR)))
    [] [EvResume]
    (set_world (sim_hass sim_mowing None (Some LawnMowerActivity.ERROR))
       (lib_mower_resume sim_mowing)).
Proof.
  destruct (@commands_issue_refresh_recompute_publish Sim Sim_Platform
              refresh_once
              (sim_hass sim_mowing None (Some LawnMowerActivity.ERROR))
              (sim_hass sim_mowing None (Some LawnMowerActivity.ERROR)) []
              (@check_connected Sim Sim_Platform
                 (sim_hass sim_mowing None (Some LawnMowerActivity.ERROR))
                 eq_refl))
    as [Hstart _].
  exact Hstart.
Defined.

(** C6 as the spec words it fails: a start command on a connected mower
    whose entity does not show DOCKED issues resume and no override. *)
Lemma start_without_override :
  ~ @start_always_overrides Sim Sim_Platform refresh_once.
Proof.
  intros Hclaim.
  destruct (Hclaim (sim_hass sim_mowing None (Some LawnMowerActivity.ERROR))
                   (sim_hass sim_mowing None (Some LawnMowerActivity.ERROR)) []
                   (@check_connected Sim Sim_Platform
                 (sim_hass sim_mowing None (Some LawnMowerActivity.ERROR))
                 eq_refl)) as [_ Hoverride].
  vm_compute in Hoverride.
  repeat (destruct Hoverride as [Hoverride|Hoverride];
          [discriminate Hoverride|]).
  exact Hoverride.
Qed.

(** Disconnected, with a snapshot that maps to MOWING: both entities are
    unavailable and both handlers publish an unavailable state. *)
Lemma unavailable_while_disconnected_witness :
  available
    (sim_hass sim_reconnect (Some snapshot_mowing)
       (Some LawnMowerActivity.MOWING)) = false /\
  events_of
    (AutomowerLawnMower_handle_coordinator_update
       (sim_hass sim_reconnect (Some snapshot_mowing)
          (Some LawnMowerActivity.MOWING))) =
  [EvWriteLawnMower false (Some LawnMowerActivity.MOWING)] /\
  events_of
    (BatterySensor_handle_coordinator_update
       (sim_hass sim_reconnect (Some snapshot_mowing)
          (Some LawnMowerActivity.MOWING))) =
  [EvWriteBattery false (Some 80%Z)].
Proof.
  destruct (@unavailable_while_disconnected Sim Sim_Platform
              (sim_hass sim_reconnect (Some snapshot_mowing)
                 (Some LawnMowerActivity.MOWING)) eq_refl)
    as (Hoff & _ & (lm' & Hlawn & _) & Hbattery).
  destruct (Hbattery 80%Z (Some MowerActivity.MOWING)
                     (Some MowerState.IN_OPERATION) eq_refl)
    as (bs' & Hsensor & _).
  split; [exact Hoff|]. split.
  - rewrite Hlawn. reflexivity.
  - rewrite Hsensor. reflexivity.
Defined.

(** A dock command while disconnected with the device missing from the
    cache: [connect] is called on the absent handle. *)
Lemma command_lookup_is_cache_only_witness :
  events_of
    (async_dock refresh_once
       (sim_hass sim_cache_miss None (Some LawnMowerActivity.MOWING))) =
  [EvCacheLookup sim_address None; EvConnect None false].
Proof.
  destruct (@command_lookup_is_cache_only Sim Sim_Platform refresh_once
              refresh_once
              (sim_hass sim_cache_miss None (Some LawnMowerActivity.MOWING))
              eq_refl)
    as (_ & (rest & Hdock) & _).
  exact Hdock.
Defined.

(** Setup on the same platform scans, finds the device and connects. *)
Example setup_scans_on_cache_miss :
  outcome_of
    (async_setup_entry refresh_once sim_address 1
       (sim_hass sim_cache_miss None None)) = Ok true /\
  events_of
    (async_setup_entry refresh_once sim_address 1
       (sim_hass sim_cache_miss None None)) =
  [EvCloseStale sim_address; EvCacheLookup sim_address None;
   EvActiveScan sim_address (Some sim_device);
   EvConnect (Some sim_device) true; EvGetModel "305"; EvRefresh;
   EvBatteryLevel (Ok (Some 80%Z));
   EvMowerActivity (Ok (Some MowerActivity.MOWING));
   EvMowerState (Ok (Some MowerState.IN_OPERATION));
   EvWriteLawnMower true (Some LawnMowerActivity.MOWING);
   EvWriteBattery true (Some 80%Z)].
Proof. split; vm_compute; reflexivity. Qed.

(** * Further properties of the code *)

Section PollerRuns.
Context {W : Type} `{Platform W}.

Ltac contradict_connected :=
  match goal with
  | Hc : lib_is_connected ?w = _, Hn : negb (lib_is_connected ?w) = _ |- _ =>
    rewrite Hc in Hn; discriminate Hn
  end.

Ltac finish_run :=
  split; [reflexivity|];
  split; [intros Hc; first [reflexivity | contradict_connected]|];
  split; [intros Hc; first [eexists; reflexivity | contradict_connected]|];
  first [left; reflexivity | right; split; reflexivity].

(** X1: a poll cycle that returns a snapshot returns exactly what its three
    reads answered, all three present, read in the order battery level,
    activity, state.  Before the reads it made no call when it started
    connected, and one successful reconnect when it started disconnected;
    after them at most the proactive disconnect, and that only for a parked
    mower. *)
Theorem poll_returns_what_it_read (h : Hass W) (d : Snapshot) :
  outcome_of (_async_update_data h) = Ok d ->
  (exists b a s, d = mkSnapshot (Some b) (Some a) (Some s)) /\
  exists pre post,
    events_of (_async_update_data h) = pre ++ reads_of d ++ post /\
    (available h = true -> pre = []) /\
    (available h = false ->
     exists dev, pre = reconnect_events (address h) (Some dev) true) /\
    (post = [] \/
     post = [EvDisconnect] /\ activity d = Some MowerActivity.PARKED).
Proof.
  unfold available.
  unfold_calls. simpl.
  repeat case_reply.
  all: cbn [address set_world world activity option_eqb] in *.
  all: subst.
  all: try discriminate.
  all: intros Hd; injection Hd as <-.
  all: destruct_replies; try discriminate.
  all: split; [do 3 eexists; reflexivity|].
  all: repeat match goal with
              | b : bool |- _ => destruct b; try discriminate
              | a : MowerActivity.t |- _ => destruct a; try discriminate
              end.
  all: first
    [ exists [], []; solve [finish_run]
    | exists [], [EvDisconnect]; solve [finish_run]
    | refine (ex_intro _ (reconnect_events (address h) (Some _) true) _);
      exists []; solve [finish_run]
    | refine (ex_intro _ (reconnect_events (address h) (Some _) true) _);
      exists [EvDisconnect]; solve [finish_run] ].
Qed.

(** X2: whatever the platform answers, a poll cycle only closes stale
    connections, asks the scan cache, connects, reads and disconnects: it
    never issues a protocol command, never scans actively and never
    publishes a state. *)
Theorem poll_makes_only_poll_calls (h : Hass W) :
  forallb is_poll_call (events_of (_async_update_data h)) = true /\
  existsb is_protocol_command (events_of (_async_update_data h)) = false /\
  existsb is_active_scan (events_of (_async_update_data h)) = false.
Proof.
  unfold_calls. simpl.
  repeat case_reply.
  all: repeat split.
Qed.

(** X3: a poll cycle, failed or not, leaves the coordinator's stored
    snapshot, its address and model and both entities as they were; only the
    platform moves. *)
Theorem poll_touches_only_the_platform (h : Hass W) :
  exists w, state_of (_async_update_data h) = set_world h w.
Proof.
  unfold_calls. simpl.
  repeat case_reply.
  all: cbn [address set_world world model data lawn_mower battery_sensor].
  all: eexists; unfold set_world; reflexivity.
Qed.

Lemma ends_here (x : Event) : exists pre, [x] = pre ++ [x].
Proof. exists []. reflexivity. Qed.

Lemma ends_later (x y : Event) (l : list Event) :
  (exists pre, l = pre ++ [x]) -> exists pre, y :: l = pre ++ [x].
Proof. intros [pre ->]. exists (y :: pre). reflexivity. Qed.

(** X4: only [BleakError] is caught.  A read that raises anything else ends
    the cycle there with that very exception: the read is the last call, no
    reconnect is attempted and no [UpdateFailed] is raised in its place. *)
Theorem foreign_read_error_propagates (h : Hass W) (e : exn) (ev : Event) :
  e <> BleakError ->
  read_raised e ev ->
  In ev (events_of (_async_update_data h)) ->
  outcome_of (_async_update_data h) = Raise e /\
  exists pre, events_of (_async_update_data h) = pre ++ [ev].
Proof.
  intros Hforeign Hread. revert Hread.
  unfold read_raised.
  unfold_calls. simpl.
  repeat case_reply.
  all: cbn [address set_world world] in *.
  all: subst.
  all: intros Hread Hin; cbn [In] in Hin.
  all: repeat (destruct Hin as [Hin|Hin]; [subst ev|]).
  all: try contradiction.
  all: destruct Hread as [Hr|[Hr|Hr]]; try discriminate Hr.
  all: injection Hr as Hr; try discriminate Hr; try (injection Hr as Hr).
  all: subst; try congruence.
  all: split; [reflexivity|].
  all: repeat first [apply ends_here | apply ends_later].
Qed.

Lemma poll_snapshot_complete (h : Hass W) (d : Snapshot) :
  outcome_of (_async_update_data h) = Ok d ->
  exists b a s, d = mkSnapshot (Some b) (Some a) (Some s).
Proof.
  unfold_calls. simpl.
  repeat case_reply.
  all: subst; try discriminate.
  all: intros Hd; injection Hd as <-.
  all: destruct_replies; try discriminate.
  all: do 3 eexists; reflexivity.
Qed.

Lemma parked_result_disconnects (h : Hass W) (d : Snapshot) :
  (forall w : W, lib_is_connected (lib_disconnect w) = false) ->
  outcome_of (_async_update_data h) = Ok d ->
  activity d = Some MowerActivity.PARKED ->
  available (state_of (_async_update_data h)) = false.
Proof.
  intros Hlaw. unfold available.
  unfold_calls. simpl.
  repeat case_reply.
  all: cbn [address set_world world activity option_eqb] in *.
  all: subst; try discriminate.
  all: intros Hd Hparked; injection Hd as <-; cbn [activity] in Hparked.
  all: subst; cbn [option_eqb MowerActivity.eqb] in *; try discriminate.
  all: first [apply Hlaw | assumption].
Qed.

(** X5: [async_shutdown] calls [disconnect] exactly when the handle is
    connected, touches nothing else, and leaves the handle disconnected. *)
Theorem shutdown_disconnects_when_connected (h : Hass W) :
  (forall w : W, lib_is_connected (lib_disconnect w) = false) ->
  async_shutdown h =
  (Ok tt,
   (if available h then set_world h (lib_disconnect (world h)) else h),
   (if available h then [EvDisconnect] else [])) /\
  available (state_of (async_shutdown h)) = false.
Proof.
  intros Hlaw. unfold available.
  unfold_calls.
  destruct (lib_is_connected (world h)) eqn:Hon; cbn [fst snd app].
  - split; [reflexivity|]. cbn [world set_world]. apply Hlaw.
  - split; [reflexivity|]. exact Hon.
Qed.

(** X6: once a poll cycle has returned a snapshot of a parked mower and the
    snapshot is stored, the update handlers of both entities publish an
    unavailable state: the proactive disconnect of the cycle makes
    [available] false, whatever the mapper says. *)
Theorem parked_poll_publishes_unavailable (h : Hass W) (d : Snapshot) :
  (forall w : W, lib_is_connected (lib_disconnect w) = false) ->
  outcome_of (_async_update_data h) = Ok d ->
  activity d = Some MowerActivity.PARKED ->
  let stored := set_data (state_of (_async_update_data h)) (Some d) in
  events_of (AutomowerLawnMower_handle_coordinator_update stored) =
  [EvWriteLawnMower false (_get_activity (Some d))] /\
  events_of (BatterySensor_handle_coordinator_update stored) =
  [EvWriteBattery false (battery_level d)].
Proof.
  intros Hlaw Hd Hparked stored.
  pose proof (parked_result_disconnects h d Hlaw Hd Hparked) as Hoff.
  destruct (poll_snapshot_complete h d Hd) as (b & a & s & ->).
  assert (Hstored : available stored = false) by exact Hoff.
  split.
  - cbv [AutomowerLawnMower_handle_coordinator_update set_attr_activity
         lawn_mower_async_write_ha_state bind gets modify events_of].
    cbn [snd app]. unfold available in *.
    cbn [world set_lawn_mower lawn_mower lm_attr_activity set_activity
         set_lm_available data stored set_data] in *.
    rewrite Hstored. reflexivity.
  - cbv [BatterySensor_handle_coordinator_update
         battery_sensor_async_write_ha_state lift_outcome bind gets modify
         events_of].
    cbn [data stored set_data subscript_battery_level py_int battery_level
         snd app].
    unfold available in *.
    cbn [world set_battery_sensor battery_sensor bs_attr_native_value
         stored set_data] in *.
    rewrite Hstored. reflexivity.
Qed.

(** X7: on a snapshot that a poll cycle returned, the battery sensor's
    handler never raises and stores the level that was read, and the lawn
    mower's handler always finds an activity (never absent); both set their
    availability attribute to true. *)
Theorem poll_snapshot_never_breaks_handlers (h h' : Hass W) (d : Snapshot) :
  outcome_of (_async_update_data h) = Ok d ->
  data h' = Some d ->
  (exists n,
     battery_level d = Some n /\
     BatterySensor_handle_coordinator_update h' =
     (Ok tt,
      set_battery_sensor h'
        (mkBatterySensor (bs_attr_name (battery_sensor h'))
           (bs_attr_unique_id (battery_sensor h')) (Some n) true),
      [EvWriteBattery (available h') (Some n)])) /\
  (exists shown,
     _get_activity (Some d) = Some shown /\
     AutomowerLawnMower_handle_coordinator_update h' =
     (Ok tt,
      set_lawn_mower h'
        (mkAutomowerLawnMower (lm_attr_name (lawn_mower h'))
           (lm_attr_unique_id (lawn_mower h'))
           (lm_attr_supported_features (lawn_mower h')) (Some shown) true),
      [EvWriteLawnMower (available h') (Some shown)])).
Proof.
  intros Hd Hdata.
  destruct (poll_snapshot_complete h d Hd) as (b & a & s & ->).
  split.
  - exists b. split; [reflexivity|].
    cbv [BatterySensor_handle_coordinator_update
         battery_sensor_async_write_ha_state lift_outcome bind gets modify].
    rewrite Hdata. reflexivity.
  - destruct (_get_activity (Some (mkSnapshot (Some b) (Some a) (Some s))))
      as [shown|] eqn:Hshown.
    + exists shown. split; [reflexivity|].
      cbv [AutomowerLawnMower_handle_coordinator_update set_attr_activity
           lawn_mower_async_write_ha_state bind gets modify].
      rewrite Hdata, Hshown. reflexivity.
    + exfalso. revert Hshown. cbn [_get_activity state activity].
      repeat match goal with
             | |- context [if ?c then _ else _] => destruct c
             end; discriminate.
Qed.

End PollerRuns.

(** ** The mapper, read backwards *)

Ltac decide_row :=
  repeat match goal with
         | Hx : _ /\ _ |- _ => destruct Hx
         | Hx : exists _, _ |- _ => destruct Hx
         | Hx : _ \/ _ |- _ => destruct Hx
         | Hx : Some _ = Some _ |- _ => injection Hx as Hx
         | Hx : In _ _ |- _ => cbn [In operating_states stopped_states
                                   docked_activities mowing_activities] in Hx
         end;
  subst; try discriminate; try contradiction; try congruence.

(** X8: the mapper read backwards.  It answers absent exactly when the
    state or the activity is absent, PAUSED exactly for state PAUSED, DOCKED
    exactly for an operating state with activity CHARGING or PARKED, MOWING
    exactly for an operating state with activity GOING_OUT, MOWING or
    GOING_HOME. *)
Theorem get_activity_inverse (d : Snapshot) :
  let shown := _get_activity (Some d) in
  (shown = None <-> state d = None \/ activity d = None) /\
  (shown = Some LawnMowerActivity.PAUSED <->
   state d = Some MowerState.PAUSED /\ activity d <> None) /\
  (shown = Some LawnMowerActivity.DOCKED <->
   exists st act,
     state d = Some st /\ activity d = Some act /\
     In st operating_states /\ In act docked_activities) /\
  (shown = Some LawnMowerActivity.MOWING <->
   exists st act,
     state d = Some st /\ activity d = Some act /\
     In st operating_states /\ In act mowing_activities).
Proof.
  destruct d as [b [act|] [st|]]; cbv zeta; cbn [state activity].
  - destruct st, act;
      cbn [_get_activity state activity MowerState.eqb MowerActivity.eqb py_in
           existsb orb];
      (split; [|split; [|split]]); (split; intros Hx); decide_row;
      try (split; [reflexivity|discriminate]);
      try (do 2 eexists;
           split; [reflexivity|split; [reflexivity|]];
           cbn [In operating_states docked_activities mowing_activities];
           auto 6).
  - cbn [_get_activity state activity].
    (split; [|split; [|split]]); (split; intros Hx); decide_row; auto.
  - cbn [_get_activity state activity].
    (split; [|split; [|split]]); (split; intros Hx); decide_row; auto.
  - cbn [_get_activity state activity].
    (split; [|split; [|split]]); (split; intros Hx); decide_row; auto.
Qed.

(** ** Strings *)

Lemma append_assoc (a b c : string) :
  String.append (String.append a b) c = String.append a (String.append b c).
Proof.
  induction a as [|ch a IH]; simpl.
  - reflexivity.
  - rewrite IH. reflexivity.
Qed.

Lemma length_append (a b : string) :
  String.length (String.append a b) = String.length a + String.length b.
Proof.
  induction a as [|ch a IH]; simpl.
  - reflexivity.
  - rewrite IH. reflexivity.
Qed.

Lemma append_nonempty_differs (a b : string) :
  b <> EmptyString -> String.append a b <> a.
Proof.
  intros Hb Heq.
  assert (Hlen : String.length (String.append a b) = String.length a)
    by (rewrite Heq; reflexivity).
  rewrite length_append in Hlen.
  destruct b as [|ch b]; [contradiction|].
  simpl in Hlen. lia.
Qed.

(** ** Setup *)

Section Setup.
Context {W : Type} `{Platform W}.
Variable first_refresh : M (Hass W) unit.

Ltac unfold_setup :=
  cbv [async_setup_entry async_refresh lawn_mower_async_setup_entry
       Mower.connect Mower.get_model
       bluetooth.async_ble_device_from_address
       bleak_retry_connector.close_stale_connections_by_address
       bleak_retry_connector.get_device
       bind ret raise gets modify emit] in *.

(** X9: the platform setup gives the lawn mower the unique id
    "automower" + model + "_" + address and the sensor that id followed by
    "_battery_level", so the two ids always differ; the lawn mower is named
    after the model, supports start, pause and dock, and the setup makes no
    call and leaves platform and snapshot alone. *)
Theorem platform_setup_builds_distinct_entities (h : Hass W) :
  let h' := state_of (lawn_mower_async_setup_entry h) in
  let mower_id := lm_attr_unique_id (lawn_mower h') in
  let sensor_id := bs_attr_unique_id (battery_sensor h') in
  mower_id =
  String.append (String.append (String.append "automower" (model h)) "_")
                (address h) /\
  sensor_id = String.append mower_id "_battery_level" /\
  mower_id <> sensor_id /\
  lm_attr_name (lawn_mower h') = model h /\
  bs_attr_name (battery_sensor h') = "Battery Level" /\
  (forall flag,
     In flag [LawnMowerEntityFeature.START_MOWING;
              LawnMowerEntityFeature.PAUSE; LawnMowerEntityFeature.DOCK] ->
     Z.land (lm_attr_supported_features (lawn_mower h')) flag = flag) /\
  world h' = world h /\ data h' = data h /\
  events_of (lawn_mower_async_setup_entry h) = [].
Proof.
  cbv zeta.
  cbv [lawn_mower_async_setup_entry bind gets modify state_of events_of].
  cbn [fst snd app lawn_mower battery_sensor set_lawn_mower set_battery_sensor
       AutomowerLawnMower__init__ BatterySensor__init__ lm_attr_unique_id
       bs_attr_unique_id lm_attr_name bs_attr_name lm_attr_supported_features
       model address world data].
  assert (Hmower :
    String.append "automower"
      (String.append (model h) (String.append "_" (address h))) =
    String.append (String.append (String.append "automower" (model h)) "_")
                  (address h)).
  { rewrite !append_assoc. reflexivity. }
  assert (Hsensor :
    String.append "automower"
      (String.append (model h)
         (String.append "_" (String.append (address h) "_battery_level"))) =
    String.append
      (String.append "automower"
         (String.append (model h) (String.append "_" (address h))))
      "_battery_level").
  { rewrite !append_assoc. reflexivity. }
  split; [exact Hmower|].
  split; [exact Hsensor|].
  split.
  { rewrite Hsensor. intros Heq. symmetry in Heq. revert Heq.
    apply append_nonempty_differs. discriminate. }
  split; [reflexivity|]. split; [reflexivity|].
  split.
  { intros flag [<-|[<-|[<-|[]]]]; reflexivity. }
  repeat split.
Qed.

(** X10: entry setup closes stale connections, asks the cache and scans
    actively only when the cache missed.  When [connect] then refuses, setup
    returns [False] at once: the model is not read, no coordinator or entity
    is built and no refresh runs. *)
Theorem setup_refused_connect_stops (entry_address : string) (channel_id : Z)
    (h : Hass W) :
  let w1 := lib_close_stale_connections_by_address entry_address (world h) in
  let cached := lib_async_ble_device_from_address entry_address w1 in
  let device :=
    if is_not_None cached then cached
    else fst (lib_get_device entry_address w1) in
  let w2 :=
    if is_not_None cached then w1 else snd (lib_get_device entry_address w1) in
  let discovery :=
    EvCloseStale entry_address :: EvCacheLookup entry_address cached ::
    (if is_not_None cached then [] else [EvActiveScan entry_address device]) in
  fst (lib_connect device w2) = false ->
  async_setup_entry first_refresh entry_address channel_id h =
  (Ok false, set_world h (snd (lib_connect device w2)),
   discovery ++ [EvConnect device false]).
Proof.
  cbv zeta. unfold_setup. cbn [world set_world].
  destruct (lib_async_ble_device_from_address _ _) as [dev|];
    cbn [is_not_None].
  - destruct (lib_connect _ _) as [ok w3]. cbn [fst snd].
    intros ->. reflexivity.
  - destruct (lib_get_device _ _) as [scanned w2]. cbn [fst snd world set_world].
    destruct (lib_connect _ _) as [ok w3]. cbn [fst snd].
    intros ->. reflexivity.
Qed.

(** X11: when [connect] accepts, entry setup reads the model, builds the
    coordinator without a snapshot and with fresh entities (activity ERROR,
    no battery value), and runs the first refresh on it; it returns [True]
    when the refresh returns and passes its exception on otherwise. *)
Theorem setup_accepted_connect_runs_first_refresh (entry_address : string)
    (channel_id : Z) (h : Hass W) :
  let w1 := lib_close_stale_connections_by_address entry_address (world h) in
  let cached := lib_async_ble_device_from_address entry_address w1 in
  let device :=
    if is_not_None cached then cached
    else fst (lib_get_device entry_address w1) in
  let w2 :=
    if is_not_None cached then w1 else snd (lib_get_device entry_address w1) in
  let discovery :=
    EvCloseStale entry_address :: EvCacheLookup entry_address cached ::
    (if is_not_None cached then [] else [EvActiveScan entry_address device]) in
  fst (lib_connect device w2) = true ->
  let named := lib_get_model (snd (lib_connect device w2)) in
  let ready :=
    state_of
      (lawn_mower_async_setup_entry
         (mkHass (snd named) entry_address (fst named) None
                 (lawn_mower h) (battery_sensor h))) in
  let first := first_refresh ready in
  data ready = None /\
  lm_attr_activity (lawn_mower ready) = Some LawnMowerActivity.ERROR /\
  bs_attr_native_value (battery_sensor ready) = None /\
  async_setup_entry first_refresh entry_address channel_id h =
  (match outcome_of first with
   | Ok _ => Ok true
   | Raise e => Raise e
   end,
   state_of first,
   discovery ++
   [EvConnect device true; EvGetModel (fst named); EvRefresh] ++
   events_of first).
Proof.
  cbv zeta. intros Hok. repeat split.
  revert Hok.
  unfold_setup.
  cbv [lawn_mower_async_setup_entry bind gets modify state_of events_of
       outcome_of].
  cbn [world set_world].
  destruct (lib_async_ble_device_from_address _ _) as [dev|];
    cbn [is_not_None].
  - destruct (lib_connect _ _) as [ok w3]. cbn [fst snd].
    intros ->. cbn [negb world set_world].
    destruct (lib_get_model w3) as [mdl w4].
    cbv [set_lawn_mower set_battery_sensor].
    cbn [fst snd app world set_world address model data lawn_mower
         battery_sensor].
    match goal with
    | |- context [first_refresh ?x] =>
      destruct (first_refresh x) as [[[[]|e] hf] ev]
    end; cbn [fst snd app]; rewrite ?app_nil_r; reflexivity.
  - destruct (lib_get_device _ _) as [scanned w2].
    cbn [fst snd world set_world].
    destruct (lib_connect _ _) as [ok w3]. cbn [fst snd].
    intros ->. cbn [negb world set_world].
    destruct (lib_get_model w3) as [mdl w4].
    cbv [set_lawn_mower set_battery_sensor].
    cbn [fst snd app world set_world address model data lawn_mower
         battery_sensor].
    match goal with
    | |- context [first_refresh ?x] =>
      destruct (first_refresh x) as [[[[]|e] hf] ev]
    end; cbn [fst snd app]; rewrite ?app_nil_r; reflexivity.
Qed.

End Setup.

(** ** Unload *)

Section Registry.
Context {V : Type}.



Lemma dict_pop_missing (k : string) (d : dict V) :
  dict_get k d = None -> dict_pop k d = None.
Proof.
  induction d as [|[k' v'] rest IH]; simpl; [reflexivity|].
  destruct (String.eqb k k'); [discriminate|].
  intros Hrest. rewrite (IH Hrest). reflexivity.
Qed.

Lemma dict_pop_present (k : string) (v : V) (d : dict V) :
  dict_get k d = Some v ->
  exists d',
    dict_pop k d = Some (v, d') /\
    forall k', k' <> k -> dict_get k' d' = dict_get k' d.
Proof.
  induction d as [|[k0 v0] rest IH]; simpl; [discriminate|].
  destruct (String.eqb k k0) eqn:Hk.
  - intros Hv. injection Hv as ->. exists rest. split; [reflexivity|].
    intros k' Hne. apply String.eqb_eq in Hk. subst k0.
    apply String.eqb_neq in Hne. rewrite Hne. reflexivity.
  - intros Hv. destruct (IH Hv) as (d' & Hpop & Hother).
    exists ((k0, v0) :: d'). rewrite Hpop. split; [reflexivity|].
    intros k' Hne. simpl. rewrite (Hother k' Hne). reflexivity.
Qed.


Lemma dict_get_missing_key (k : string) (d : dict V) :
  ~ In k (map fst d) -> dict_get k d = None.
Proof.
  induction d as [|[k0 v0] rest IH]; simpl; [reflexivity|].
  intros Hnot. destruct (String.eqb k k0) eqn:Hk.
  - apply String.eqb_eq in Hk. exfalso. apply Hnot. left. symmetry. exact Hk.
  - apply IH. intros Hin. apply Hnot. right. exact Hin.
Qed.

Lemma dict_pop_keys (k : string) (v : V) (d d' : dict V) :
  dict_pop k d = Some (v, d') ->
  forall x, In x (map fst d') -> In x (map fst d).
Proof.
  revert d'. induction d as [|[k0 v0] rest IH]; simpl; [discriminate|].
  intros d'. destruct (String.eqb k k0).
  - intros Hpop. injection Hpop as _ <-. intros x Hin. right. exact Hin.
  - destruct (dict_pop k rest) as [[found rest']|] eqn:Hrest; [|discriminate].
    intros Hpop. injection Hpop as <- <-. simpl.
    intros x [Hx|Hx]; [left; exact Hx|right; exact (IH rest' eq_refl x Hx)].
Qed.

(** A pop takes exactly one binding out; in a dictionary whose keys are
    distinct, as Python's are, the key is gone afterwards. *)
Lemma dict_pop_removes (k : string) (v : V) (d d' : dict V) :
  dict_pop k d = Some (v, d') ->
  List.length d = S (List.length d') /\
  (NoDup (map fst d) -> dict_get k d' = None /\ NoDup (map fst d')).
Proof.
  revert d'. induction d as [|[k0 v0] rest IH]; simpl; [discriminate|].
  intros d'. destruct (String.eqb k k0) eqn:Hk.
  - intros Hpop. injection Hpop as _ <-. split; [reflexivity|].
    intros Hnodup. inversion Hnodup as [|x l Hnot Hrest]; subst.
    apply String.eqb_eq in Hk. subst k0.
    split; [apply dict_get_missing_key; exact Hnot|exact Hrest].
  - destruct (dict_pop k rest) as [[found rest']|] eqn:Hrest; [|discriminate].
    intros Hpop. injection Hpop as <- <-.
    destruct (IH rest' eq_refl) as [Hlen Hgone].
    split; [simpl; rewrite Hlen; reflexivity|].
    intros Hnodup. inversion Hnodup as [|x l Hnot Hnodup']; subst.
    destruct (Hgone Hnodup') as [Hnone Hnodup''].
    split.
    + simpl. rewrite Hk. exact Hnone.
    + simpl. constructor; [|exact Hnodup''].
      intros Hin. apply Hnot. exact (dict_pop_keys k found rest rest' Hrest k0 Hin).
Qed.

(** [dict_set] keeps the keys distinct. *)
Lemma dict_set_keys (k : string) (v : V) (d : dict V) :
  forall x, In x (map fst (dict_set k v d)) -> x = k \/ In x (map fst d).
Proof.
  induction d as [|[k0 v0] rest IH]; simpl.
  - intros x [Hx|[]]. left. symmetry. exact Hx.
  - destruct (String.eqb k k0) eqn:Hk; simpl.
    + intros x [Hx|Hx]; [left; symmetry; exact Hx|right; right; exact Hx].
    + intros x [Hx|Hx]; [right; left; exact Hx|].
      destruct (IH x Hx) as [Hxk|Hin]; [left; exact Hxk|right; right; exact Hin].
Qed.

Lemma dict_set_keeps_distinct_keys (k : string) (v : V) (d : dict V) :
  NoDup (map fst d) -> NoDup (map fst (dict_set k v d)).
Proof.
  induction d as [|[k0 v0] rest IH]; simpl.
  - intros _. constructor; [intros []|constructor].
  - intros Hnodup. inversion Hnodup as [|x l Hnot Hrest]; subst.
    destruct (String.eqb k k0) eqn:Hk; simpl.
    + apply String.eqb_eq in Hk. subst k0. constructor; assumption.
    + constructor; [|exact (IH Hrest)].
      intros Hin. destruct (dict_set_keys k v rest k0 Hin) as [Heq|Hin'].
      * subst k0. rewrite String.eqb_refl in Hk. discriminate Hk.
      * exact (Hnot Hin').
Qed.


End Registry.

Section Unload.
Context {W : Type} `{Platform W}.

Lemma shutdown_run (c : Hass W) :
  async_shutdown c =
  (Ok tt,
   (if available c then set_world c (lib_disconnect (world c)) else c),
   (if available c then [EvDisconnect] else [])).
Proof.
  unfold available. unfold_calls.
  destruct (lib_is_connected (world c)); reflexivity.
Qed.

(** X12: unload, by cases.  When the platforms refuse to unload, nothing is
    touched and [False] is returned.  Otherwise a missing [DOMAIN] key or an
    unregistered entry raises [KeyError] with the registry as it was; a
    registered entry is popped: the registry loses exactly that binding (the
    entry id is no longer registered, the keys being distinct), every other
    entry stays, its coordinator is shut down (disconnect exactly when
    connected), and [True] is returned. *)
Theorem unload_entry_cases (unload_ok : bool) (entry_id : string)
    (hass_data : option (dict (Hass W))) :
  let run := async_unload_entry unload_ok entry_id hass_data in
  (unload_ok = false ->
   run = mkUnloadRun (Unloaded false) hass_data None []) /\
  (unload_ok = true -> hass_data = None ->
   run = mkUnloadRun KeyError_DOMAIN None None []) /\
  (unload_ok = true ->
   forall registry,
     hass_data = Some registry -> dict_get entry_id registry = None ->
     run = mkUnloadRun (KeyError_entry entry_id) (Some registry) None []) /\
  (unload_ok = true ->
   forall registry c,
     hass_data = Some registry -> dict_get entry_id registry = Some c ->
     exists registry',
       run =
       mkUnloadRun (Unloaded true) (Some registry')
         (Some (if available c then set_world c (lib_disconnect (world c))
                else c))
         (if available c then [EvDisconnect] else []) /\
       (forall k, k <> entry_id -> dict_get k registry' = dict_get k registry) /\
       List.length registry = S (List.length registry') /\
       (NoDup (map fst registry) ->
        dict_get entry_id registry' = None /\ NoDup (map fst registry'))).
Proof.
  cbv zeta. split; [|split; [|split]].
  - intros ->. reflexivity.
  - intros -> ->. reflexivity.
  - intros -> registry -> Hmissing. unfold async_unload_entry.
    rewrite (dict_pop_missing entry_id registry Hmissing). reflexivity.
  - intros -> registry c -> Hpresent.
    destruct (dict_pop_present entry_id c registry Hpresent)
      as (registry' & Hpop & Hother).
    exists registry'. split; [|split; [exact Hother|]].
    + unfold async_unload_entry. rewrite Hpop, shutdown_run. reflexivity.
    + exact (dict_pop_removes entry_id c registry registry' Hpop).
Qed.


End Unload.

(** * Further runs on the scripted platform *)

(** A cycle that starts disconnected, reconnects and reads a mowing mower. *)
Lemma poll_returns_what_it_read_witness :
  (exists b a s, snapshot_mowing = mkSnapshot (Some b) (Some a) (Some s)) /\
  exists pre post,
    events_of (_async_update_data (sim_hass sim_reconnect None None)) =
    pre ++ reads_of snapshot_mowing ++ post /\
    (available (sim_hass sim_reconnect None None) = true -> pre = []) /\
    (available (sim_hass sim_reconnect None None) = false ->
     exists dev, pre = reconnect_events sim_address (Some dev) true) /\
    (post = [] \/
     post = [EvDisconnect] /\
     activity snapshot_mowing = Some MowerActivity.PARKED).
Proof.
  apply (@poll_returns_what_it_read Sim Sim_Platform
           (sim_hass sim_reconnect None None) snapshot_mowing).
  reflexivity.
Defined.

(** A state read that raises [TypeError]. *)
Lemma foreign_read_error_propagates_witness :
  outcome_of (_async_update_data (sim_hass sim_state_type_error None None)) =
  Raise (TypeError "bad reply") /\
  exists pre,
    events_of (_async_update_data (sim_hass sim_state_type_error None None)) =
    pre ++ [EvMowerState (Raise (TypeError "bad reply"))].
Proof.
  apply (@foreign_read_error_propagates Sim Sim_Platform
           (sim_hass sim_state_type_error None None)
           (TypeError "bad reply")
           (EvMowerState (Raise (TypeError "bad reply")))).
  - discriminate.
  - right. right. reflexivity.
  - simpl. right. right. left. reflexivity.
Defined.

(** Shutdown of a connected coordinator. *)
Lemma shutdown_disconnects_when_connected_witness :
  async_shutdown (sim_hass sim_mowing None None) =
  (Ok tt,
   set_world (sim_hass sim_mowing None None) (lib_disconnect sim_mowing),
   [EvDisconnect]) /\
  available (state_of (async_shutdown (sim_hass sim_mowing None None))) = false.
Proof.
  exact (@shutdown_disconnects_when_connected Sim Sim_Platform
           (sim_hass sim_mowing None None) sim_disconnect_closes).
Defined.

(** A parked mower: the mapper says DOCKED, the entities are published
    unavailable. *)
Lemma parked_poll_publishes_unavailable_witness :
  events_of
    (AutomowerLawnMower_handle_coordinator_update
       (set_data (state_of (_async_update_data (sim_hass sim_parked None None)))
                 (Some snapshot_parked))) =
  [EvWriteLawnMower false (Some LawnMowerActivity.DOCKED)] /\
  events_of
    (BatterySensor_handle_coordinator_update
       (set_data (state_of (_async_update_data (sim_hass sim_parked None None)))
                 (Some snapshot_parked))) =
  [EvWriteBattery false (Some 100%Z)].
Proof.
  exact (@parked_poll_publishes_unavailable Sim Sim_Platform
           (sim_hass sim_parked None None) snapshot_parked
           sim_disconnect_closes eq_refl eq_refl).
Defined.

(** The handlers on the snapshot of a mowing mower. *)
Lemma poll_snapshot_never_breaks_handlers_witness :
  (exists n,
     battery_level snapshot_mowing = Some n /\
     outcome_of
       (BatterySensor_handle_coordinator_update
          (sim_hass sim_mowing (Some snapshot_mowing) None)) = Ok tt) /\
  (exists shown,
     _get_activity (Some snapshot_mowing) = Some shown /\
     outcome_of
       (AutomowerLawnMower_handle_coordinator_update
          (sim_hass sim_mowing (Some snapshot_mowing) None)) = Ok tt).
Proof.
  destruct (@poll_snapshot_never_breaks_handlers Sim Sim_Platform
              (sim_hass sim_mowing None None)
              (sim_hass sim_mowing (Some snapshot_mowing) None)
              snapshot_mowing eq_refl eq_refl)
    as ((n & Hlevel & Hsensor) & (shown & Hshown & Hlawn)).
  split.
  - exists n. split; [exact Hlevel|]. rewrite Hsensor. reflexivity.
  - exists shown. split; [exact Hshown|]. rewrite Hlawn. reflexivity.
Defined.

(** Setup with the device in the cache and the connect refused. *)
Lemma setup_refused_connect_stops_witness :
  async_setup_entry refresh_once sim_address 1
    (sim_hass sim_connect_refused None None) =
  (Ok false, sim_hass sim_connect_refused None None,
   [EvCloseStale sim_address; EvCacheLookup sim_address (Some sim_device);
    EvConnect (Some sim_device) false]).
Proof.
  exact (@setup_refused_connect_stops Sim Sim_Platform refresh_once
           sim_address 1 (sim_hass sim_connect_refused None None) eq_refl).
Defined.

(** Setup on a cache miss: the scan finds the device, the connect is
    accepted, the coordinator starts without a snapshot. *)
Lemma setup_accepted_connect_runs_first_refresh_witness :
  data
    (state_of
       (lawn_mower_async_setup_entry
          (mkHass (sim_set_connected sim_cache_miss true) sim_address "305"
                  None (lawn_mower (sim_hass sim_cache_miss None None))
                  (battery_sensor (sim_hass sim_cache_miss None None))))) =
  None.
Proof.
  destruct (@setup_accepted_connect_runs_first_refresh Sim Sim_Platform
              refresh_once sim_address 1 (sim_hass sim_cache_miss None None)
              eq_refl)
    as (Hdata & _).
  exact Hdata.
Defined.

(** Unload of one of two registered entries, its coordinator connected:
    the entry is gone from the registry, the other one stays. *)
Lemma unload_entry_cases_witness :
  exists registry',
    async_unload_entry true "entry-1"
      (Some [("entry-1", sim_hass sim_mowing (Some snapshot_mowing) None);
             ("entry-2", sim_hass sim_parked None None)]) =
    mkUnloadRun (Unloaded true) (Some registry')
      (Some (set_world (sim_hass sim_mowing (Some snapshot_mowing) None)
                       (lib_disconnect sim_mowing)))
      [EvDisconnect] /\
    dict_get "entry-1" registry' = None /\
    dict_get "entry-2" registry' = Some (sim_hass sim_parked None None) /\
    List.length registry' = 1.
Proof.
  destruct (@unload_entry_cases Sim Sim_Platform true "entry-1"
              (Some [("entry-1",
                      sim_hass sim_mowing (Some snapshot_mowing) None);
                     ("entry-2", sim_hass sim_parked None None)]))
    as (_ & _ & _ & Hregistered).
  destruct (Hregistered eq_refl _ _ eq_refl eq_refl)
    as (registry' & Hrun & Hother & Hlen & Hgone).
  exists registry'. split; [exact Hrun|]. split; [|split].
  - apply Hgone. simpl. constructor.
    + simpl. intros [Hx|[]]. discriminate Hx.
    + constructor; [intros []|constructor].
  - rewrite (Hother "entry-2"); [reflexivity|discriminate].
  - simpl in Hlen. injection Hlen as Hlen. symmetry. exact Hlen.
Defined.

